(** * generate_prompts.py: the prompt generator of the realtime metrics dashboard

    A shallow embedding of [dev/complete/realtime-metrics-dashboard/generate_prompts.py]
    and the properties its specification states about it.

    Python values are modelled as follows.
    - [str] is a Rocq [string]: the sequence of the bytes of its UTF-8
      encoding, which is also what [open(..., 'w', encoding='utf-8')] stores.
      Concatenation, [join] and formatting commute with that encoding.
    - [int] is [Z].
    - a record of the [prompts] table is a Python dict read through ['key']
      (a missing key raises [KeyError]) or through [.get(key, default)];
      it is modelled as a record of optional fields.
    - exceptions are the [Raise] results of a small error monad; the file
      system and the console are threaded through [run] explicitly.
    - the file system is a platform that the script does not change (the
      directories, the paths that [open] refuses, the file that each path
      names) and the contents of the files, which it does. *)

From Stdlib Require Import ZArith NArith Ascii String DecimalString DecimalN Lia.

From stdpp Require Import gmap strings list fin_maps.

#[local] Open Scope Z_scope.

(** ** Python primitives *)

Module Py.

(** [chr(10)], the newline of the triple-quoted literals. *)
Definition nl : string := String "010"%char EmptyString.

(** The double quote character. *)
Definition dq : string := String "034"%char EmptyString.

(** [sep.join(l)] *)
Fixpoint join (sep : string) (l : list string) : string :=
  match l with
  | [] => EmptyString
  | [x] => x
  | x :: ((_ :: _) as r) => x +:+ sep +:+ join sep r
  end.

(** [c.lower()] on one character of the ASCII range. *)
Definition lower_ascii (c : ascii) : ascii :=
  let n := nat_of_ascii c in
  if (65 <=? n)%nat && (n <=? 90)%nat then ascii_of_nat (n + 32) else c.

(** [s.lower()] on ASCII text, as every title of the [prompts] table is.
    Bytes outside the ASCII range are left as they are, where [str.lower()]
    also maps the cased letters beyond ASCII: the properties about a text
    that holds a lowered title are stated for ASCII titles. *)
Fixpoint lower (s : string) : string :=
  match s with
  | EmptyString => EmptyString
  | String c r => String (lower_ascii c) (lower r)
  end.

(** [n] copies of the character ['0']. *)
Fixpoint zeros (n : nat) : string :=
  match n with
  | O => EmptyString
  | S k => String "0"%char (zeros k)
  end.

(** The decimal digits of a natural number, as [str(n)] prints them. *)
Definition digits (n : N) : string := NilZero.string_of_uint (N.to_uint n).

(** [format(n, '0wd')], the format spec of [{n:02d}] and [{n:03d}]:
    sign-aware zero padding up to [w] characters. *)
Definition format_0d (w : nat) (n : Z) : string :=
  let sign := if n <? 0 then "-" else "" in
  let ds := digits (Z.abs_N n) in
  sign +:+ zeros (w - String.length sign - String.length ds) +:+ ds.

(** Truth value of a list and of a string: non-empty. *)
Definition truthy_list {A} (l : list A) : bool :=
  match l with [] => false | _ :: _ => true end.

Definition truthy_str (s : string) : bool :=
  match s with EmptyString => false | String _ _ => true end.

(** Truth value of an [int]: non-zero. *)
Definition truthy_int (n : Z) : bool := negb (n =? 0).


(** [s.split(chr(10))]: the lines of a text. *)
Fixpoint lines (s : string) : list string :=
  match s with
  | EmptyString => [EmptyString]
  | String c r =>
      if Ascii.eqb c "010"%char then EmptyString :: lines r
      else match lines r with
           | l :: ls => String c l :: ls
           | [] => [String c EmptyString]
           end
  end.

End Py.

(** ** Exceptions *)

(** The exceptions the script can raise on the modelled state: [KeyError]
    from [p[key]], [FileNotFoundError] from [open] when the directory of the
    path does not exist, and [OpenError] for every other exception of
    [open(path, 'w')] ([OSError] for a name that is too long, for a directory
    at the path or for a missing permission, [ValueError] for a NUL
    character). *)
Inductive exn : Type :=
| KeyError (key : string)
| FileNotFoundError (path : string)
| OpenError (path : string).

Inductive result (A : Type) : Type :=
| Ok (a : A)
| Raise (e : exn).

Arguments Ok {A} a.

Arguments Raise {A} e.

#[global] Instance exn_eq_dec : EqDecision exn.
Proof. solve_decision. Defined.

#[global] Instance result_eq_dec {A} `{EqDecision A} : EqDecision (result A).
Proof. solve_decision. Defined.

#[global] Instance result_ret : MRet result := fun _ a => Ok a.

#[global] Instance result_bind : MBind result := fun _ _ f m =>
  match m with
  | Ok a => f a
  | Raise e => Raise e
  end.

(** ** The records of the [prompts] table *)

(** One dict of the table. A field is [None] when the dict has no such key. *)
Record prompt : Type := {
  num : option Z;
  title : option string;
  objective : option string;
  depends : option (list string);
  files : option (list string);
  commands : option string;
  scope : option string;
  decisions : option (list string);
  edge_cases : option (list string);
  code_refs : option (list string)
}.

#[global] Instance prompt_eq_dec : EqDecision prompt.
Proof. solve_decision. Defined.

(** [p[key]]: raises [KeyError] when the key is missing. *)
Definition getitem {A} (key : string) (field : option A) : result A :=
  match field with
  | Some v => Ok v
  | None => Raise (KeyError key)
  end.

(** [p.get(key, default)] *)
Definition get {A} (field : option A) (default : A) : A :=
  match field with
  | Some v => v
  | None => default
  end.

Definition base_dir : string :=
  "C:/Users/bobby/src/claude/claude-hall-monitor/dev/active/realtime-metrics-dashboard/prompts".

Definition F010 : prompt :=
  {| num := Some 10;
     title := Some "Install shadcn/ui Data Display Components";
     objective := Some "Install shadcn/ui components for data display: card, badge, progress, table, tabs.";
     depends := Some (["F003"]);
     files := Some (["src/components/ui/*"]);
     commands := Some "bun x shadcn@latest add card badge progress table tabs";
     scope := Some "shadcn-data";
     decisions := None;
     edge_cases := None;
     code_refs := None |}.

Definition F011 : prompt :=
  {| num := Some 11;
     title := Some "Install shadcn/ui Form & Feedback Components";
     objective := Some "Install shadcn/ui components: button, input, select, dropdown-menu, tooltip, skeleton, toast, alert.";
     depends := Some (["F003"]);
     files := Some (["src/components/ui/*"]);
     commands := Some "bun x shadcn@latest add button input select dropdown-menu tooltip skeleton toast alert";
     scope := Some "shadcn-forms";
     decisions := None;
     edge_cases := None;
     code_refs := None |}.

Definition F012 : prompt :=
  {| num := Some 12;
     title := Some "Install shadcn/ui Chart Components";
     objective := Some "Install shadcn/ui chart components and Recharts dependency.";
     depends := Some (["F003"]);
     files := Some (["src/components/ui/chart.tsx"]);
     commands := Some "bun x shadcn@latest add chart";
     scope := Some "shadcn-charts";
     decisions := None;
     edge_cases := None;
     code_refs := None |}.

Definition F013 : prompt :=
  {| num := Some 13;
     title := Some "Build Layout Components";
     objective := Some "Create app-sidebar, header, and page-container layout components.";
     depends := Some (["F009"]);
     files := Some (["src/components/layout/app-sidebar.tsx"; "src/components/layout/header.tsx"; "src/components/layout/page-container.tsx"]);
     commands := Some "";
     scope := Some "layout";
     decisions := Some (["D003"]);
     edge_cases := None;
     code_refs := Some (["code/typescript.md#components"]) |}.

Definition F014 : prompt :=
  {| num := Some 14;
     title := Some "Create App Shell with Layout";
     objective := Some "Update App.tsx with sidebar, header, and main content area layout.";
     depends := Some (["F004"; "F013"]);
     files := Some (["src/App.tsx"]);
     commands := Some "";
     scope := Some "app-shell";
     decisions := None;
     edge_cases := None;
     code_refs := Some (["code/typescript.md#components"]) |}.

Definition F015 : prompt :=
  {| num := Some 15;
     title := Some "Build Plan Card Components";
     objective := Some "Create plan-card (expanded) and plan-card-compact components.";
     depends := Some (["F010"]);
     files := Some (["src/components/plans/plan-card.tsx"; "src/components/plans/plan-card-compact.tsx"]);
     commands := Some "";
     scope := Some "plans";
     decisions := Some (["D009"]);
     edge_cases := Some (["EC003"]);
     code_refs := Some (["code/typescript.md#components"]) |}.

Definition F016 : prompt :=
  {| num := Some 16;
     title := Some "Build Active Orchestrations Component";
     objective := Some "Create active-orchestrations component with SSE integration for realtime updates.";
     depends := Some (["F015"; "F008"]);
     files := Some (["src/components/plans/active-orchestrations.tsx"]);
     commands := Some "";
     scope := Some "plans";
     decisions := Some (["D001"; "D007"]);
     edge_cases := Some (["EC001"; "EC002"; "EC003"]);
     code_refs := Some (["code/typescript.md#components"]) |}.

Definition F017 : prompt :=
  {| num := Some 17;
     title := Some "Build Metrics Display Components";
     objective := Some "Create stat-card and metrics-grid components.";
     depends := Some (["F010"]);
     files := Some (["src/components/metrics/stat-card.tsx"; "src/components/metrics/metrics-grid.tsx"]);
     commands := Some "";
     scope := Some "metrics";
     decisions := None;
     edge_cases := None;
     code_refs := Some (["code/typescript.md#components"]) |}.

Definition F018 : prompt :=
  {| num := Some 18;
     title := Some "Build Chart Components";
     objective := Some "Create cost-chart (area) and tokens-chart (bar) components using Recharts.";
     depends := Some (["F012"]);
     files := Some (["src/components/metrics/cost-chart.tsx"; "src/components/metrics/tokens-chart.tsx"]);
     commands := Some "";
     scope := Some "metrics";
     decisions := Some (["D011"]);
     edge_cases := None;
     code_refs := Some (["code/typescript.md#components"]) |}.

Definition F019 : prompt :=
  {| num := Some 19;
     title := Some "Build Plan List and Detail Components";
     objective := Some "Create plan-list, plan-detail, and feature-list components.";
     depends := Some (["F010"]);
     files := Some (["src/components/plans/plan-list.tsx"; "src/components/plans/plan-detail.tsx"; "src/components/plans/feature-list.tsx"]);
     commands := Some "";
     scope := Some "plans";
     decisions := Some (["D004"]);
     edge_cases := Some (["EC008"; "EC009"]);
     code_refs := Some (["code/typescript.md#components"]) |}.

Definition F020 : prompt :=
  {| num := Some 20;
     title := Some "Build Orchestration Timeline";
     objective := Some "Create orchestration-timeline component for visual parallel execution.";
     depends := Some (["F010"]);
     files := Some (["src/components/plans/orchestration-timeline.tsx"]);
     commands := Some "";
     scope := Some "plans";
     decisions := Some (["D005"]);
     edge_cases := None;
     code_refs := Some (["code/typescript.md#components"]) |}.

Definition F021 : prompt :=
  {| num := Some 21;
     title := Some "Build Session Components";
     objective := Some "Create session-list, session-detail, and tool-usage-chart components.";
     depends := Some (["F010"; "F012"]);
     files := Some (["src/components/sessions/session-list.tsx"; "src/components/sessions/session-detail.tsx"; "src/components/sessions/tool-usage-chart.tsx"]);
     commands := Some "";
     scope := Some "sessions";
     decisions := None;
     edge_cases := Some (["EC005"]);
     code_refs := Some (["code/typescript.md#components"]) |}.

Definition F022 : prompt :=
  {| num := Some 22;
     title := Some "Build Overview Page";
     objective := Some "Assemble Overview page with ActiveOrchestrations, MetricsGrid, and Charts.";
     depends := Some (["F016"; "F017"; "F018"]);
     files := Some (["src/pages/overview.tsx"]);
     commands := Some "";
     scope := Some "overview";
     decisions := Some (["D001"]);
     edge_cases := Some (["EC002"]);
     code_refs := Some (["code/typescript.md#components"]) |}.

Definition F023 : prompt :=
  {| num := Some 23;
     title := Some "Build Plans Page";
     objective := Some "Assemble Plans page with tabs, PlanList, PlanDetail, and OrchestrationTimeline.";
     depends := Some (["F019"; "F020"]);
     files := Some (["src/pages/plans.tsx"]);
     commands := Some "";
     scope := Some "plans";
     decisions := Some (["D004"; "D005"]);
     edge_cases := None;
     code_refs := Some (["code/typescript.md#components"]) |}.

Definition F024 : prompt :=
  {| num := Some 24;
     title := Some "Build Sessions Page";
     objective := Some "Assemble Sessions page with filters, SessionList, and SessionDetail.";
     depends := Some (["F021"]);
     files := Some (["src/pages/sessions.tsx"]);
     commands := Some "";
     scope := Some "sessions";
     decisions := Some (["D004"]);
     edge_cases := Some (["EC005"]);
     code_refs := Some (["code/typescript.md#components"]) |}.

Definition F025 : prompt :=
  {| num := Some 25;
     title := Some "Build Settings Page";
     objective := Some "Create Settings page with theme toggle and preferences.";
     depends := Some (["F011"]);
     files := Some (["src/pages/settings.tsx"]);
     commands := Some "";
     scope := Some "settings";
     decisions := None;
     edge_cases := None;
     code_refs := Some (["code/typescript.md#components"]) |}.

Definition F026 : prompt :=
  {| num := Some 26;
     title := Some "Implement Loading and Error States";
     objective := Some "Add skeletons, error boundaries, toasts, and empty states to all pages.";
     depends := Some (["F011"; "F022"; "F023"; "F024"]);
     files := Some (["src/components/ui/error-boundary.tsx"; "src/lib/toast.ts"]);
     commands := Some "";
     scope := Some "polish";
     decisions := None;
     edge_cases := Some (["EC002"; "EC004"; "EC010"]);
     code_refs := Some (["code/typescript.md#error-handling"]) |}.

Definition F027 : prompt :=
  {| num := Some 27;
     title := Some "Add Responsive Design";
     objective := Some "Implement mobile viewport handling with collapsible sidebar.";
     depends := Some (["F014"]);
     files := Some (["src/App.tsx"; "src/components/layout/app-sidebar.tsx"]);
     commands := Some "";
     scope := Some "responsive";
     decisions := None;
     edge_cases := Some (["EC007"]);
     code_refs := Some (["code/css.md#responsive"]) |}.

Definition F028 : prompt :=
  {| num := Some 28;
     title := Some "Implement Keyboard Shortcuts";
     objective := Some "Add keyboard shortcuts for navigation and sidebar toggle.";
     depends := Some (["F014"; "F022"; "F023"; "F024"]);
     files := Some (["src/hooks/use-keyboard.ts"; "src/App.tsx"]);
     commands := Some "";
     scope := Some "keyboard";
     decisions := None;
     edge_cases := None;
     code_refs := Some (["code/typescript.md#hooks"]) |}.

Definition F029 : prompt :=
  {| num := Some 29;
     title := Some "Theme Persistence and System Integration";
     objective := Some "Implement localStorage theme persistence with system theme fallback.";
     depends := Some (["F025"]);
     files := Some (["src/hooks/use-theme.ts"; "src/pages/settings.tsx"]);
     commands := Some "";
     scope := Some "theme";
     decisions := None;
     edge_cases := Some (["EC006"]);
     code_refs := Some (["code/typescript.md#hooks"]) |}.

Definition F030 : prompt :=
  {| num := Some 30;
     title := Some "Update Server Integration";
     objective := Some "Modify server.ts to serve React build from dist/.";
     depends := Some (["F022"; "F023"; "F024"]);
     files := Some (["hooks/viewer/server.ts"]);
     commands := Some "";
     scope := Some "server";
     decisions := Some (["D012"]);
     edge_cases := None;
     code_refs := Some (["code/typescript.md#server"]) |}.

Definition F031 : prompt :=
  {| num := Some 31;
     title := Some "Configure Vite Build Process";
     objective := Some "Configure vite.config.ts and update build.ts for production builds.";
     depends := Some (["F001"; "F030"]);
     files := Some (["hooks/viewer/vite.config.ts"; "hooks/build.ts"]);
     commands := Some "";
     scope := Some "build";
     decisions := None;
     edge_cases := None;
     code_refs := Some (["code/html.md#vite-config"; "code/bash.md#build"]) |}.

Definition F032 : prompt :=
  {| num := Some 32;
     title := Some "Integration Testing and Verification";
     objective := Some "Test all pages with real API, verify SSE, theme, and keyboard shortcuts.";
     depends := Some (["F031"]);
     files := Some (["src/__tests__/integration.test.tsx"]);
     commands := Some "";
     scope := Some "testing";
     decisions := None;
     edge_cases := None;
     code_refs := Some (["code/typescript.md#testing"]) |}.

Definition prompts : list prompt :=
  [F010; F011; F012; F013; F014; F015; F016; F017; F018; F019; F020; F021; F022; F023; F024; F025; F026; F027; F028; F029; F030; F031; F032].

(** ** The template: [generate_prompt] *)

Import Py.

(** The four characters that open the attribution line of the commit block,
    as the bytes of their UTF-8 encoding. *)
Definition attribution_mark : string :=
  String "195"%char (String "176"%char (String "197"%char (String "184"%char
  (String "194"%char (String "164"%char (String "226"%char (String "128"%char
  (String "147"%char EmptyString)))))))).

(** [f'- **{d}**: Completed'] *)
Definition dep_bullet (d : string) : string := "- **" +:+ d +:+ "**: Completed".

(** [f'- **{d}**: See decisions.md for details'] *)
Definition decision_bullet (d : string) : string :=
  "- **" +:+ d +:+ "**: See decisions.md for details".

(** [f'- **{ec}**: See edge-cases.md for handling details'] *)
Definition edge_case_bullet (ec : string) : string :=
  "- **" +:+ ec +:+ "**: See edge-cases.md for handling details".

(** [f'- `{ref}` - Implementation patterns'] *)
Definition code_ref_bullet (ref : string) : string :=
  "- `" +:+ ref +:+ "` - Implementation patterns".

(** The first literal, lines 184 to 199 of the script. *)
Definition header (num : Z) (title obj : string) (deps : list string) : string :=
  "# Feature: F" +:+ format_0d 3 num +:+ " - " +:+ title +:+ nl +:+
  nl +:+
  "## Project Context" +:+ nl +:+
  nl +:+
  "See `context.md` for feature rationale and architecture vision." +:+ nl +:+
  nl +:+
  "## Prior Work" +:+ nl +:+
  nl +:+
  join nl (map dep_bullet deps) +:+ nl +:+
  nl +:+
  "## Objective" +:+ nl +:+
  nl +:+
  obj +:+ nl +:+
  nl +:+
  "> **Scope Constraint**: It is unacceptable to implement features beyond this task's scope." +:+ nl.

(** Lines 202 to 207. *)
Definition decisions_section (decisions : list string) : string :=
  nl +:+
  "## Relevant Decisions" +:+ nl +:+
  nl +:+
  "From `decisions.md`:" +:+ nl +:+
  join nl (map decision_bullet decisions) +:+ nl.

(** Lines 210 to 215. *)
Definition edge_cases_section (edge_cases : list string) : string :=
  nl +:+
  "## Edge Cases to Handle" +:+ nl +:+
  nl +:+
  "From `edge-cases.md`:" +:+ nl +:+
  join nl (map edge_case_bullet edge_cases) +:+ nl.

(** Lines 218 to 223. *)
Definition code_refs_section (code_refs : list string) : string :=
  nl +:+
  "## Code References" +:+ nl +:+
  nl +:+
  "Read these sections before implementing:" +:+ nl +:+
  join nl (map code_ref_bullet code_refs) +:+ nl.

(** Lines 225 to 229. *)
Definition constraints_section : string :=
  nl +:+
  "## Constraints" +:+ nl +:+
  nl +:+
  "- See `constraints.md` for global rules" +:+ nl.

(** Line 232. *)
Definition install_line (cmds : string) : string :=
  "- Install components using: `" +:+ cmds +:+ "`" +:+ nl.

(** Lines 234 to 239. *)
Definition files_heading : string :=
  nl +:+
  "## Files to Create/Modify" +:+ nl +:+
  nl +:+
  "| File | Purpose |" +:+ nl +:+
  "|------|---------|" +:+ nl.

(** Line 241. *)
Definition file_row (f : string) : string :=
  "| `hooks/viewer/" +:+ f +:+ "` | See objective |" +:+ nl.

(** Lines 244 to 252. *)
Definition commands_section (cmds : string) : string :=
  nl +:+
  "## Implementation Details" +:+ nl +:+
  nl +:+
  "Run these commands:" +:+ nl +:+
  "```bash" +:+ nl +:+
  "cd C:/Users/bobby/src/claude/claude-hall-monitor/hooks/viewer" +:+ nl +:+
  cmds +:+ nl +:+
  "```" +:+ nl.

(** Lines 254 to 258. *)
Definition no_commands_section : string :=
  nl +:+
  "## Implementation Details" +:+ nl +:+
  nl +:+
  "See code references for complete implementation patterns." +:+ nl.

(** Lines 260 to 284: the acceptance criteria, the verification block and
    the head of the commit block. *)
Definition acceptance_and_commit (num : Z) (title obj scope : string) : string :=
  nl +:+
  "## Acceptance Criteria" +:+ nl +:+
  nl +:+
  "- [ ] All files created/modified as specified" +:+ nl +:+
  "- [ ] TypeScript compiles without errors" +:+ nl +:+
  "- [ ] Functionality works as expected" +:+ nl +:+
  nl +:+
  "## Verification" +:+ nl +:+
  nl +:+
  "```bash" +:+ nl +:+
  "cd C:/Users/bobby/src/claude/claude-hall-monitor/hooks/viewer" +:+ nl +:+
  "bun run tsc --noEmit" +:+ nl +:+
  "```" +:+ nl +:+
  nl +:+
  "## Commit" +:+ nl +:+
  nl +:+
  "```bash" +:+ nl +:+
  "git add hooks/viewer/" +:+ nl +:+
  "git commit -m " +:+ dq +:+ "$(cat <<'EOF'" +:+ nl +:+
  "feat(" +:+ scope +:+ "): " +:+ lower title +:+ nl +:+
  nl +:+
  obj +:+ nl +:+
  nl +:+
  "Implements: F" +:+ format_0d 3 num +:+ nl.

(** Line 287. *)
Definition decisions_line (decisions : list string) : string :=
  "Decisions: " +:+ join ", " decisions +:+ nl.

(** Line 289. *)
Definition edge_cases_line (edge_cases : list string) : string :=
  "Edge Cases: " +:+ join ", " edge_cases +:+ nl.

(** Lines 291 to 298. *)
Definition attribution : string :=
  nl +:+
  attribution_mark +:+ " Generated with [Claude Code](https://claude.com/claude-code)" +:+ nl +:+
  nl +:+
  "Co-Authored-By: Claude Opus 4.5 <noreply@anthropic.com>" +:+ nl +:+
  "EOF" +:+ nl +:+
  ")" +:+ dq +:+ nl +:+
  "```" +:+ nl.

(** Line 301. *)
Definition next_footer (next_num : Z) : string :=
  nl +:+ "## Next" +:+ nl +:+ nl +:+
  "Proceed to: `prompts/" +:+ format_0d 2 next_num +:+ "-*.md` (F" +:+
  format_0d 3 next_num +:+ ")" +:+ nl.

(** Line 303. *)
Definition complete_footer : string :=
  nl +:+ "## Next" +:+ nl +:+ nl +:+
  "All features complete! Create manifest.jsonl and README.md." +:+ nl.

(** [generate_prompt(p)], statement by statement. *)
Definition generate_prompt (p : prompt) : result string :=
  num ← getitem "num" (num p);
  title ← getitem "title" (title p);
  obj ← getitem "objective" (objective p);
  let deps := get (depends p) [] in
  let files := get (files p) [] in
  let cmds := get (commands p) "" in
  let scope := get (scope p) "viewer" in
  let decisions := get (decisions p) [] in
  let edge_cases := get (edge_cases p) [] in
  let code_refs := get (code_refs p) [] in
  let next_num := if num <? 32 then Some (num + 1) else None in
  let content := header num title obj deps in
  let content :=
    if truthy_list decisions then content +:+ decisions_section decisions else content in
  let content :=
    if truthy_list edge_cases then content +:+ edge_cases_section edge_cases else content in
  let content :=
    if truthy_list code_refs then content +:+ code_refs_section code_refs else content in
  let content := content +:+ constraints_section in
  let content := if truthy_str cmds then content +:+ install_line cmds else content in
  let content := content +:+ files_heading in
  let content := fold_left (fun content f => content +:+ file_row f) files content in
  let content :=
    if truthy_str cmds then content +:+ commands_section cmds
    else content +:+ no_commands_section in
  let content := content +:+ acceptance_and_commit num title obj scope in
  let content :=
    if truthy_list decisions then content +:+ decisions_line decisions else content in
  let content :=
    if truthy_list edge_cases then content +:+ edge_cases_line edge_cases else content in
  let content := content +:+ attribution in
  let content :=
    match next_num with
    | Some n => if truthy_int n then content +:+ next_footer n
                else content +:+ complete_footer
    | None => content +:+ complete_footer
    end in
  mret content.

(** ** The file system and the console *)

(** What the script can observe and change. The platform, which the script
    never changes: the directories that exist, the paths that
    [open(path, 'w')] refuses for another reason than a missing directory
    (a name that is too long, a NUL character, a directory at the path, a
    missing permission), and the file that a path names (two paths can name
    one file: [..], links, letter case). The state: the text files with
    their contents, each under the name [file_of] gives it, and the text
    written to standard output. Which exception a path gets that is refused
    and whose directory is missing as well depends on the platform; the
    properties below speak of a missing directory for paths that are not
    refused. *)
Record world : Type := {
  dirs : gset string;
  refused : string -> bool;
  file_of : string -> string;
  contents : gmap string string;
  stdout : string
}.

(** The part of a path before its last ['/'], [None] when it has none. *)
Fixpoint split_dir (path : string) : option string :=
  match path with
  | EmptyString => None
  | String c r =>
      match split_dir r with
      | Some d => Some (String c d)
      | None => if Ascii.eqb c "/"%char then Some EmptyString else None
      end
  end.

(** The directory a path lies in; the empty string is the working directory. *)
Definition parent_dir (path : string) : string := get (split_dir path) "".

(** Commands: a state transformer that may raise. The state reached when an
    exception is raised is kept: what was written before stays written. *)
Definition io (A : Type) : Type := world -> result A * world.

#[global] Instance io_ret : MRet io := fun _ a w => (Ok a, w).

#[global] Instance io_bind : MBind io := fun _ _ f m w =>
  match m w with
  | (Ok a, w') => f a w'
  | (Raise e, w') => (Raise e, w')
  end.

(** A computation without effects, run as a command. *)
Definition lift {A} (r : result A) : io A := fun w => (r, w).

(** [with open(path, 'w', encoding='utf-8') as f: f.write(text)]: a path that
    the platform refuses raises [OpenError], a path whose directory does not
    exist raises [FileNotFoundError]; otherwise the file that the path names
    is truncated and [text] becomes its whole contents. *)
Definition write_file (path text : string) : io unit := fun w =>
  if refused w path then (Raise (OpenError path), w)
  else if decide (parent_dir path ∈ dirs w) then
    (Ok tt, {| dirs := dirs w; refused := refused w; file_of := file_of w;
               contents := <[file_of w path := text]> (contents w);
               stdout := stdout w |})
  else (Raise (FileNotFoundError path), w).

(** [print(text)] *)
Definition print (text : string) : io unit := fun w =>
  (Ok tt, {| dirs := dirs w; refused := refused w; file_of := file_of w;
             contents := contents w; stdout := stdout w +:+ text +:+ nl |}).

(** [for x in l: body(x)] *)
Fixpoint for_each {A} (body : A -> io unit) (l : list A) : io unit :=
  match l with
  | [] => mret tt
  | x :: r => body x ≫= fun _ => for_each body r
  end.

(** ** The main loop *)

(** Line 310, [f"{base_dir}/{num:02d}-{p['scope']}.md"]. *)
Definition filename_of (num : Z) (p : prompt) : result string :=
  scope ← getitem "scope" (scope p);
  mret (base_dir +:+ "/" +:+ format_0d 2 num +:+ "-" +:+ scope +:+ ".md").

(** The path of a record's document: lines 309 and 310. *)
Definition derive_filename (p : prompt) : result string :=
  num ← getitem "num" (num p);
  filename_of num p.

(** [f"Created F{num:03d}"] *)
Definition created (num : Z) : string := "Created F" +:+ format_0d 3 num.

(** The body of the loop, lines 309 to 316. *)
Definition write_prompt (p : prompt) : io unit :=
  num ← lift (getitem "num" (num p));
  filename ← lift (filename_of num p);
  content ← lift (generate_prompt p);
  write_file filename content;;
  print (created num).

(** [str(n)] for a length. *)
Definition str_len {A} (l : list A) : string := digits (N.of_nat (length l)).

(** Lines 308 to 318: the loop over the records and the summary. *)
Definition run (prompts : list prompt) : io unit :=
  for_each write_prompt prompts;;
  print (nl +:+ "Total prompts created: " +:+ str_len prompts).

(** The script: [run] on the built-in table. *)
Definition main : io unit := run prompts.

(** * Vocabulary of the properties *)

(** ** Strings as character sequences *)


(** [s] ends with [suf]. *)
Definition ends_with (suf s : string) : Prop := exists r, s = r +:+ suf.

(** [needle] occurs in [s]. *)
Definition occurs (needle s : string) : Prop :=
  exists pre post, s = pre +:+ needle +:+ post.

(** ** Decimal formatting *)

(** A decimal digit. *)
Definition is_digit (c : ascii) : bool :=
  let n := nat_of_ascii c in (48 <=? n)%nat && (n <=? 57)%nat.

Fixpoint all_digits (s : string) : bool :=
  match s with
  | EmptyString => true
  | String c r => is_digit c && all_digits r
  end.

(** The number a string of decimal digits denotes, leading zeros allowed. *)
Definition decimal_value (s : string) : option N :=
  option_map N.of_uint (NilEmpty.uint_of_string s).

(** Reading back what [format_0d] prints, as [int(s)] does. *)
Definition parse_0d (s : string) : option Z :=
  match s with
  | EmptyString => None
  | String c r =>
      if Ascii.eqb c "-"%char then option_map (fun n => - Z.of_N n) (decimal_value r)
      else option_map Z.of_N (decimal_value s)
  end.

(** A record numbered 7 in the category "layout". *)
Definition layout_7 : prompt :=
  {| num := Some 7; title := Some "Layout"; objective := Some "Lay out the page.";
     depends := None; files := None; commands := None; scope := Some "layout";
     decisions := None; edge_cases := None; code_refs := None |}.

(** ** Runs of the main loop *)

(** What one iteration computes before it touches the file system: the
    number, the path and the text of the record. *)
Definition prepare (p : prompt) : result (Z * string * string) :=
  num ← getitem "num" (num p);
  filename ← filename_of num p;
  content ← generate_prompt p;
  mret (num, filename, content).

(** One iteration on the platform of [w]: the write it performs, as the
    number of the record, the file written and its text, or the exception it
    raises. *)
Definition outcome (w : world) (p : prompt) : result (Z * string * string) :=
  match prepare p with
  | Ok (n, f, c) =>
      if refused w f then Raise (OpenError f)
      else if decide (parent_dir f ∈ dirs w) then Ok (n, file_of w f, c)
      else Raise (FileNotFoundError f)
  | Raise e => Raise e
  end.

(** The iterations that complete, in order, and the exception that stops the
    loop, if any. *)
Fixpoint process (w : world) (ps : list prompt)
  : list (Z * string * string) * option exn :=
  match ps with
  | [] => ([], None)
  | p :: r =>
      match outcome w p with
      | Ok x => let (xs, e) := process w r in (x :: xs, e)
      | Raise e => ([], Some e)
      end
  end.

(** The world on the platform of [w] with the files [m] and the console
    text [out]. *)
Definition after (w : world) (m : gmap string string) (out : string) : world :=
  {| dirs := dirs w; refused := refused w; file_of := file_of w;
     contents := m; stdout := out |}.

(** The files after a sequence of writes: later writes replace earlier ones. *)
Definition store (xs : list (Z * string * string)) (m : gmap string string)
  : gmap string string :=
  foldl (fun m x => <[x.1.2 := x.2]> m) m xs.

(** The console text of a sequence of completed iterations. *)
Fixpoint created_lines (xs : list (Z * string * string)) : string :=
  match xs with
  | [] => ""
  | x :: r => created x.1.1 +:+ nl +:+ created_lines r
  end.

(** The last line printed. *)
Definition summary (ps : list prompt) : string :=
  nl +:+ "Total prompts created: " +:+ str_len ps.

(** The keys of a record that the loop reads with [p[key]], in the order in
    which it reads them; the first one that is missing. *)
Definition missing_key (p : prompt) : option string :=
  match num p, scope p, title p, objective p with
  | None, _, _, _ => Some "num"
  | Some _, None, _, _ => Some "scope"
  | Some _, Some _, None, _ => Some "title"
  | Some _, Some _, Some _, None => Some "objective"
  | Some _, Some _, Some _, Some _ => None
  end.

(** A record with every required key. *)
Definition complete (p : prompt) : Prop := missing_key p = None.

#[global] Instance complete_dec (p : prompt) : Decision (complete p).
Proof. unfold complete. apply _. Defined.

(** A write as a binding of the file map: the path and the text. *)
Definition entry (x : Z * string * string) : string * string := (x.1.2, x.2).

(** A disk without any directory, and one that has the output directory;
    on both every path is accepted and names a file of its own. *)
Definition empty_disk : world :=
  {| dirs := ∅; refused := fun _ => false; file_of := fun f => f;
     contents := ∅; stdout := "" |}.

Definition output_dir_only : world :=
  {| dirs := {[ base_dir ]}; refused := fun _ => false; file_of := fun f => f;
     contents := ∅; stdout := "" |}.

(** [s.isascii()]: every byte is below 128. On such a text [lower] is
    [str.lower()]. *)
Fixpoint is_ascii (s : string) : bool :=
  match s with
  | EmptyString => true
  | String c r => (nat_of_ascii c <? 128)%nat && is_ascii r
  end.

(** The title of the record, when it has one, is ASCII text. *)
Definition ascii_title (p : prompt) : Prop := is_ascii (get (title p) "") = true.

#[global] Instance ascii_title_dec (p : prompt) : Decision (ascii_title p).
Proof. unfold ascii_title. apply _. Defined.

(** The directory of a record's path exists. *)
Definition dir_ready (w : world) (p : prompt) : Prop :=
  match derive_filename p with
  | Ok f => parent_dir f ∈ dirs w
  | Raise _ => True
  end.

#[global] Instance dir_ready_dec (w : world) (p : prompt) : Decision (dir_ready w p).
Proof. unfold dir_ready. destruct (derive_filename p); apply _. Defined.

(** The platform does not refuse the record's path. *)
Definition accepted (w : world) (p : prompt) : Prop :=
  match derive_filename p with
  | Ok f => refused w f = false
  | Raise _ => True
  end.

#[global] Instance accepted_dec (w : world) (p : prompt) : Decision (accepted w p).
Proof. unfold accepted. destruct (derive_filename p); apply _. Defined.

(** The file that the record's path names. *)
Definition file_id (w : world) (p : prompt) : result string :=
  f ← derive_filename p;
  mret (file_of w f).

(** The name of a file within its directory. *)
Definition file_name (path : string) : string :=
  match split_dir path with
  | Some d => substring (S (String.length d)) (String.length path) path
  | None => path
  end.

(** A disk with the output directory on which a file name holds at most
    255 bytes. *)
Definition short_names_disk : world :=
  {| dirs := {[ base_dir ]};
     refused := fun f => (255 <? String.length (file_name f))%nat;
     file_of := fun f => f; contents := ∅; stdout := "" |}.

(** [n] times the letter [a]. *)
Fixpoint letters (n : nat) : string :=
  match n with
  | O => EmptyString
  | S m => String "a"%char (letters m)
  end.

(** The record F010 under a category tag of 252 letters: the name of its
    file has 258 bytes. *)
Definition long_tag_10 : prompt :=
  {| num := num F010; title := title F010; objective := objective F010;
     depends := depends F010; files := files F010; commands := commands F010;
     scope := Some (letters 252); decisions := decisions F010;
     edge_cases := edge_cases F010; code_refs := code_refs F010 |}.

(** A disk with the output directory and a directory [10-x] in it: the path
    through [10-x/..] names the file of F010. *)
Definition dotdot_disk : world :=
  {| dirs := {[ base_dir; base_dir +:+ "/10-x"; base_dir +:+ "/10-x/.." ]};
     refused := fun _ => false;
     file_of := fun f =>
       if String.eqb f (base_dir +:+ "/10-x/../10-shadcn-data.md")
       then base_dir +:+ "/10-shadcn-data.md" else f;
     contents := ∅; stdout := "" |}.

(** A record numbered 10 whose category tag leads through [10-x/..] to the
    file of F010. *)
Definition alias_10 : prompt :=
  {| num := Some 10; title := Some "Alias"; objective := Some "Same file.";
     depends := None; files := None; commands := None;
     scope := Some "x/../10-shadcn-data"; decisions := None;
     edge_cases := None; code_refs := None |}.

(** The invariant of the data model: each number is the one before it plus
    one. *)
Fixpoint increasing_by_one (ns : list Z) : bool :=
  match ns with
  | a :: ((b :: _) as r) => (b =? a + 1) && increasing_by_one r
  | _ => true
  end.

(** A record set as the data model wants it: every record has its required
    keys and the sequence numbers are dense and increasing. *)
Definition valid_records (ps : list prompt) : bool :=
  bool_decide (Forall complete ps) && increasing_by_one (omap num ps).

(** The record F011 of the table without its title. *)
Definition untitled_11 : prompt :=
  {| num := num F011; title := None; objective := objective F011;
     depends := depends F011; files := files F011; commands := commands F011;
     scope := scope F011; decisions := None; edge_cases := None; code_refs := None |}.

(** ** The document as a sequence of sections *)

(** A section that is there or not. *)
Definition opt (b : bool) (s : string) : string := if b then s else "".

(** The rows the loop of line 240 adds. *)
Fixpoint file_rows (files : list string) : string :=
  match files with
  | [] => ""
  | f :: r => file_row f +:+ file_rows r
  end.

(** The footer, decided by the number of the record alone. *)
Definition footer (num : Z) : string :=
  if num <? 32 then
    if truthy_int (num + 1) then next_footer (num + 1) else complete_footer
  else complete_footer.

(** The sections of a document, in the order in which they are added. *)
Definition sections (p : prompt) (num : Z) (title obj : string) : list string :=
  let cmds := get (commands p) "" in
  let decisions := get (decisions p) [] in
  let edge_cases := get (edge_cases p) [] in
  let code_refs := get (code_refs p) [] in
  [ header num title obj (get (depends p) []);
    opt (truthy_list decisions) (decisions_section decisions);
    opt (truthy_list edge_cases) (edge_cases_section edge_cases);
    opt (truthy_list code_refs) (code_refs_section code_refs);
    constraints_section;
    opt (truthy_str cmds) (install_line cmds);
    files_heading;
    file_rows (get (files p) []);
    if truthy_str cmds then commands_section cmds else no_commands_section;
    acceptance_and_commit num title obj (get (scope p) "viewer");
    opt (truthy_list decisions) (decisions_line decisions);
    opt (truthy_list edge_cases) (edge_cases_line edge_cases);
    attribution;
    footer num ].

(** The sections one after the other. *)
Fixpoint concat_all (l : list string) : string :=
  match l with
  | [] => ""
  | s :: r => s +:+ concat_all r
  end.

(** ** The cross-reference footer *)

(** The sentence that closes the last document. *)
Definition sentinel : string :=
  "All features complete! Create manifest.jsonl and README.md.".

(** A record with number [n + 1] is in the set. *)
Definition successor_in (ps : list prompt) (n : Z) : Prop := Some (n + 1) ∈ num <$> ps.

(** No record of the set has a number above [n]. *)
Definition is_last (ps : list prompt) (n : Z) : Prop :=
  Forall (fun q => match num q with Some m => m <= n | None => True end) ps.

#[global] Instance successor_in_dec (ps : list prompt) (n : Z) :
  Decision (successor_in ps n).
Proof. unfold successor_in. apply _. Defined.

#[global] Instance is_last_dec (ps : list prompt) (n : Z) : Decision (is_last ps n).
Proof. unfold is_last. apply Forall_dec. intros q. destruct (num q); apply _. Defined.

(** The numbers of the data model that the constant of line 182 allows for:
    positive and at most 32. *)
Definition numbered_upto_32 (q : prompt) : Prop :=
  match num q with Some m => 0 < m <= 32 | None => True end.

#[global] Instance numbered_upto_32_dec (q : prompt) : Decision (numbered_upto_32 q).
Proof. unfold numbered_upto_32. destruct (num q); apply _. Defined.



(** ** The lines of a text *)

(** A text without a newline. *)
Fixpoint single_line (s : string) : bool :=
  match s with
  | EmptyString => true
  | String c r => negb (Ascii.eqb c "010"%char) && single_line r
  end.

(** The lines of [acc +:+ s], for an [acc] without a newline. *)
Definition lines_from (acc s : string) : list string :=
  match lines s with
  | l :: ls => (acc +:+ l) :: ls
  | [] => [acc]
  end.

(** The lines of [nl.join(l)]: the joined texts, or one empty line. *)
Definition bullets (l : list string) : list string :=
  match l with
  | [] => [""]
  | _ :: _ => l
  end.

(** ** The document as a sequence of lines *)

(** Every text of the record is one line. *)
Definition one_line_fields (p : prompt) : bool :=
  single_line (get (title p) "") && single_line (get (objective p) "")
  && forallb single_line (get (depends p) [])
  && forallb single_line (get (files p) [])
  && single_line (get (commands p) "")
  && single_line (get (scope p) "viewer")
  && forallb single_line (get (decisions p) [])
  && forallb single_line (get (edge_cases p) [])
  && forallb single_line (get (code_refs p) []).

Definition header_lines (num : Z) (title obj : string) (deps : list string) : list string :=
  [ "# Feature: F" +:+ format_0d 3 num +:+ " - " +:+ title;
    "";
    "## Project Context";
    "";
    "See `context.md` for feature rationale and architecture vision.";
    "";
    "## Prior Work";
    "" ]
  ++ bullets (dep_bullet <$> deps)
  ++ [ "";
       "## Objective";
       "";
       obj;
       "";
       "> **Scope Constraint**: It is unacceptable to implement features beyond this task's scope." ].

Definition decisions_lines (decisions : list string) : list string :=
  [ ""; "## Relevant Decisions"; ""; "From `decisions.md`:" ]
  ++ bullets (decision_bullet <$> decisions).

Definition edge_cases_lines (edge_cases : list string) : list string :=
  [ ""; "## Edge Cases to Handle"; ""; "From `edge-cases.md`:" ]
  ++ bullets (edge_case_bullet <$> edge_cases).

Definition code_refs_lines (code_refs : list string) : list string :=
  [ ""; "## Code References"; ""; "Read these sections before implementing:" ]
  ++ bullets (code_ref_bullet <$> code_refs).

Definition constraints_lines : list string :=
  [ ""; "## Constraints"; ""; "- See `constraints.md` for global rules" ].

Definition install_lines (cmds : string) : list string :=
  [ "- Install components using: `" +:+ cmds +:+ "`" ].

Definition files_heading_lines : list string :=
  [ ""; "## Files to Create/Modify"; ""; "| File | Purpose |"; "|------|---------|" ].

Definition file_row_line (f : string) : string :=
  "| `hooks/viewer/" +:+ f +:+ "` | See objective |".

Definition commands_lines (cmds : string) : list string :=
  [ ""; "## Implementation Details"; ""; "Run these commands:"; "```bash";
    "cd C:/Users/bobby/src/claude/claude-hall-monitor/hooks/viewer"; cmds; "```" ].

Definition no_commands_lines : list string :=
  [ ""; "## Implementation Details"; "";
    "See code references for complete implementation patterns." ].

Definition acceptance_lines : list string :=
  [ ""; "## Acceptance Criteria"; "";
    "- [ ] All files created/modified as specified";
    "- [ ] TypeScript compiles without errors";
    "- [ ] Functionality works as expected";
    ""; "## Verification"; ""; "```bash";
    "cd C:/Users/bobby/src/claude/claude-hall-monitor/hooks/viewer";
    "bun run tsc --noEmit"; "```";
    ""; "## Commit"; ""; "```bash"; "git add hooks/viewer/";
    "git commit -m " +:+ dq +:+ "$(cat <<'EOF'" ].

(** The head of the commit message. *)
Definition commit_lines (num : Z) (title obj scope : string) : list string :=
  [ "feat(" +:+ scope +:+ "): " +:+ lower title;
    "";
    obj;
    "";
    "Implements: F" +:+ format_0d 3 num ].

Definition decisions_line_lines (decisions : list string) : list string :=
  [ "Decisions: " +:+ join ", " decisions ].

Definition edge_cases_line_lines (edge_cases : list string) : list string :=
  [ "Edge Cases: " +:+ join ", " edge_cases ].

Definition attribution_lines : list string :=
  [ "";
    attribution_mark +:+ " Generated with [Claude Code](https://claude.com/claude-code)";
    "";
    "Co-Authored-By: Claude Opus 4.5 <noreply@anthropic.com>";
    "EOF";
    ")" +:+ dq;
    "```" ].

Definition next_footer_lines (next_num : Z) : list string :=
  [ ""; "## Next"; "";
    "Proceed to: `prompts/" +:+ format_0d 2 next_num +:+ "-*.md` (F" +:+
      format_0d 3 next_num +:+ ")" ].

Definition complete_footer_lines : list string :=
  [ ""; "## Next"; ""; "All features complete! Create manifest.jsonl and README.md." ].

Definition footer_lines (num : Z) : list string :=
  if num <? 32 then
    if truthy_int (num + 1) then next_footer_lines (num + 1) else complete_footer_lines
  else complete_footer_lines.

(** The lines of a section that is there or not. *)
Definition opt_lines (b : bool) (ls : list string) : list string := if b then ls else [].

(** The lines of a document: those of its sections in order, and the empty
    piece after the last newline. *)
Definition document_lines (p : prompt) (num : Z) (title obj : string) : list string :=
  let cmds := get (commands p) "" in
  let decisions := get (decisions p) [] in
  let edge_cases := get (edge_cases p) [] in
  let code_refs := get (code_refs p) [] in
  header_lines num title obj (get (depends p) [])
  ++ opt_lines (truthy_list decisions) (decisions_lines decisions)
  ++ opt_lines (truthy_list edge_cases) (edge_cases_lines edge_cases)
  ++ opt_lines (truthy_list code_refs) (code_refs_lines code_refs)
  ++ constraints_lines
  ++ opt_lines (truthy_str cmds) (install_lines cmds)
  ++ files_heading_lines
  ++ (file_row_line <$> get (files p) [])
  ++ (if truthy_str cmds then commands_lines cmds else no_commands_lines)
  ++ acceptance_lines
  ++ commit_lines num title obj (get (scope p) "viewer")
  ++ opt_lines (truthy_list decisions) (decisions_line_lines decisions)
  ++ opt_lines (truthy_list edge_cases) (edge_cases_line_lines edge_cases)
  ++ attribution_lines
  ++ footer_lines num
  ++ [""].

(** A text made of whole lines: its lines come before those of whatever
    follows it. *)
Definition whole_lines (s : string) (ls : list string) : Prop :=
  forall r, lines (s +:+ r) = ls ++ lines r.

(** ** The headings of the conditional sections *)







(** ** The commit message *)

(** The text between the line that opens the here-document of the commit
    command and the line [EOF] that closes it. *)
Definition commit_message (num : Z) (title obj scope : string)
    (decisions edge_cases : list string) : string :=
  "feat(" +:+ scope +:+ "): " +:+ lower title +:+ nl +:+
  nl +:+
  obj +:+ nl +:+
  nl +:+
  "Implements: F" +:+ format_0d 3 num +:+ nl +:+
  opt (truthy_list decisions) ("Decisions: " +:+ join ", " decisions +:+ nl) +:+
  opt (truthy_list edge_cases) ("Edge Cases: " +:+ join ", " edge_cases +:+ nl) +:+
  nl +:+
  attribution_mark +:+ " Generated with [Claude Code](https://claude.com/claude-code)" +:+ nl +:+
  nl +:+
  "Co-Authored-By: Claude Opus 4.5 <noreply@anthropic.com>" +:+ nl.

(** The same text, line by line. *)
Definition commit_message_lines (num : Z) (title obj scope : string)
    (decisions edge_cases : list string) : list string :=
  [ "feat(" +:+ scope +:+ "): " +:+ lower title; ""; obj; "";
    "Implements: F" +:+ format_0d 3 num ]
  ++ opt_lines (truthy_list decisions) [ "Decisions: " +:+ join ", " decisions ]
  ++ opt_lines (truthy_list edge_cases) [ "Edge Cases: " +:+ join ", " edge_cases ]
  ++ [ "";
       attribution_mark +:+ " Generated with [Claude Code](https://claude.com/claude-code)";
       "";
       "Co-Authored-By: Claude Opus 4.5 <noreply@anthropic.com>" ].

(** The line that opens the here-document. *)
Definition commit_open : string := "git commit -m " +:+ dq +:+ "$(cat <<'EOF'".

(** ** The console *)

(** The text that printing the lines [l] one after the other writes. *)
Fixpoint unlines (l : list string) : string :=
  match l with
  | [] => ""
  | x :: r => x +:+ nl +:+ unlines r
  end.

(** The numbers of a sequence of completed iterations. *)
Definition written_numbers (xs : list (Z * string * string)) : list Z :=
  (fun x => x.1.1) <$> xs.

(** * Vocabulary of the further properties *)

(** The text of a record's document, when [generate_prompt] returns one. *)
Definition render (p : prompt) : option string :=
  match generate_prompt p with
  | Ok c => Some c
  | Raise _ => None
  end.

(** The last record of a list whose path names the file [g]. *)
Definition last_with_file (w : world) (g : string) (ps : list prompt) : option prompt :=
  last (filter (fun p => file_id w p = Ok g) ps).

(** A record without a category tag. *)
Definition untagged_5 : prompt :=
  {| num := Some 5; title := Some "Untagged Work"; objective := Some "No tag.";
     depends := None; files := None; commands := None; scope := None;
     decisions := None; edge_cases := None; code_refs := None |}.

(** The record F010 of the table under another title: same number, same
    category tag, hence the same path. *)
Definition retitled_10 : prompt :=
  {| num := num F010; title := Some "Second Take"; objective := objective F010;
     depends := depends F010; files := files F010; commands := commands F010;
     scope := scope F010; decisions := None; edge_cases := None; code_refs := None |}.

(** A disk with the output directory and one file that is not a document. *)
Definition disk_with_notes : world :=
  {| dirs := {[ base_dir ]}; refused := fun _ => false; file_of := fun f => f;
     contents := {[ base_dir +:+ "/notes.txt" := "keep" ]};
     stdout := "" |}.

(** A text without the character ['/']. *)
Fixpoint no_slash (s : string) : bool :=
  match s with
  | EmptyString => true
  | String c r => negb (Ascii.eqb c "/"%char) && no_slash r
  end.

(** The category tag of the record, when it has one, names no directory. *)
Definition flat_tag (p : prompt) : Prop :=
  match scope p with
  | Some s => no_slash s = true
  | None => True
  end.

#[global] Instance flat_tag_dec (p : prompt) : Decision (flat_tag p).
Proof. unfold flat_tag. destruct (scope p); apply _. Defined.

(** * Properties *)

(** ** The Python primitives on examples *)

Example format_0d_7 : Py.format_0d 2 7 = "07". Proof. reflexivity. Qed.

Example format_0d_32 : Py.format_0d 3 32 = "032". Proof. reflexivity. Qed.

Example format_0d_negative : Py.format_0d 3 (-5) = "-05". Proof. reflexivity. Qed.

Example format_0d_wide : Py.format_0d 2 1234 = "1234". Proof. reflexivity. Qed.

Example join_3 : Py.join ", " ["a"; "b"; "c"] = "a, b, c". Proof. reflexivity. Qed.

Example lower_ex : Py.lower "Build Layout" = "build layout". Proof. reflexivity. Qed.

Example lines_ex : Py.lines ("a" +:+ Py.nl +:+ Py.nl +:+ "b") = ["a"; ""; "b"].
Proof. reflexivity. Qed.

(** ** Strings as character sequences *)

Module Str.

Lemma app_nil_l (s : string) : "" +:+ s = s.
Proof. reflexivity. Qed.

Lemma app_cons (c : ascii) (a b : string) : String c a +:+ b = String c (a +:+ b).
Proof. reflexivity. Qed.

Lemma app_nil_r (s : string) : s +:+ "" = s.
Proof. induction s as [|c s IH]; [reflexivity | now rewrite app_cons, IH]. Qed.

Lemma app_assoc (a b c : string) : (a +:+ b) +:+ c = a +:+ (b +:+ c).
Proof. induction a as [|x a IH]; [reflexivity | now rewrite !app_cons, IH]. Qed.

Lemma length_app (a b : string) :
  String.length (a +:+ b) = (String.length a + String.length b)%nat.
Proof.
  induction a as [|x a IH]; [reflexivity |].
  rewrite app_cons. simpl. now rewrite IH.
Qed.

(** Cancellation on the left is stdpp's [String.app_inj]; on the right it
    goes through the lengths. *)
Lemma app_inv_length (a a' b b' : string) :
  String.length a = String.length a' ->
  a +:+ b = a' +:+ b' -> a = a' /\ b = b'.
Proof.
  revert a'. induction a as [|x a IH]; intros [|x' a'] Hlen Heq;
    try discriminate Hlen.
  - now split.
  - rewrite !app_cons in Heq. injection Heq as -> Heq. injection Hlen as Hlen.
    destruct (IH a' Hlen Heq) as [-> ->]. now split.
Qed.

Lemma app_inv_tail (a a' b : string) : a +:+ b = a' +:+ b -> a = a'.
Proof.
  intros Heq. refine (proj1 (app_inv_length a a' b b _ Heq)).
  apply (f_equal String.length) in Heq. rewrite !length_app in Heq. lia.
Qed.



End Str.

(** ** Decimal formatting *)

Module Fmt.

Lemma all_digits_app (a b : string) :
  all_digits (a +:+ b) = all_digits a && all_digits b.
Proof.
  induction a as [|c a IH]; [reflexivity |].
  rewrite Str.app_cons. simpl. now rewrite IH, andb_assoc.
Qed.

Lemma all_digits_zeros (k : nat) : all_digits (zeros k) = true.
Proof. induction k as [|k IH]; [reflexivity | exact IH]. Qed.

Lemma all_digits_uint (d : Decimal.uint) :
  all_digits (NilEmpty.string_of_uint d) = true.
Proof. induction d; simpl; auto. Qed.

Lemma to_uint_not_nil (n : N) : N.to_uint n <> Decimal.Nil.
Proof.
  destruct n as [|p]; [discriminate |].
  intros H. apply (f_equal N.of_uint) in H.
  rewrite DecimalN.Unsigned.of_to in H. discriminate.
Qed.

Lemma digits_unfold (n : N) : digits n = NilEmpty.string_of_uint (N.to_uint n).
Proof.
  unfold digits, NilZero.string_of_uint.
  pose proof (to_uint_not_nil n). now destruct (N.to_uint n).
Qed.

Lemma all_digits_digits (n : N) : all_digits (digits n) = true.
Proof. rewrite digits_unfold. apply all_digits_uint. Qed.

Lemma digits_not_empty (n : N) : digits n <> "".
Proof.
  rewrite digits_unfold. pose proof (to_uint_not_nil n).
  now destruct (N.to_uint n).
Qed.

Lemma decimal_value_digits (n : N) : decimal_value (digits n) = Some n.
Proof.
  unfold decimal_value. rewrite digits_unfold, NilEmpty.usu. simpl.
  now rewrite DecimalN.Unsigned.of_to.
Qed.

Lemma decimal_value_zeros (k : nat) (s : string) :
  decimal_value (zeros k +:+ s) = decimal_value s.
Proof.
  induction k as [|k IH]; [reflexivity |].
  simpl zeros. rewrite Str.app_cons. rewrite <- IH.
  unfold decimal_value. simpl.
  now destruct (NilEmpty.uint_of_string (zeros k +:+ s)).
Qed.

Lemma digit_not_minus (c : ascii) : is_digit c = true -> Ascii.eqb c "-"%char = false.
Proof.
  destruct c as [[|] [|] [|] [|] [|] [|] [|] [|]]; vm_compute; congruence.
Qed.

(** What [format_0d] prints for a number that is not negative. *)
Lemma format_0d_nonneg (w : nat) (n : Z) :
  0 <= n ->
  format_0d w n = zeros (w - String.length (digits (Z.to_N n))) +:+ digits (Z.to_N n).
Proof.
  intros Hn. unfold format_0d.
  destruct (Z.ltb_spec n 0) as [?|_]; [lia |].
  rewrite Str.app_nil_l. simpl String.length. rewrite Nat.sub_0_r.
  replace (Z.abs_N n) with (Z.to_N n) by (destruct n; [reflexivity..|lia]).
  reflexivity.
Qed.

(** What [format_0d] prints for a negative number. *)
Lemma format_0d_neg (w : nat) (n : Z) :
  n < 0 ->
  format_0d w n =
    "-" +:+ zeros (w - 1 - String.length (digits (Z.abs_N n))) +:+ digits (Z.abs_N n).
Proof.
  intros Hn. unfold format_0d.
  destruct (Z.ltb_spec n 0) as [_|?]; [reflexivity | lia].
Qed.

(** [format_0d] is read back exactly: [int(format(n, '0wd')) == n]. *)
Lemma parse_format_0d (w : nat) (n : Z) : parse_0d (format_0d w n) = Some n.
Proof.
  destruct (Z.lt_ge_cases n 0) as [Hn|Hn].
  - rewrite format_0d_neg by exact Hn.
    change ("-" +:+ ?s) with (String "-"%char s). simpl parse_0d.
    rewrite decimal_value_zeros, decimal_value_digits. simpl. f_equal.
    rewrite N2Z.inj_abs_N. lia.
  - rewrite format_0d_nonneg by exact Hn.
    assert (Hd : all_digits
              (zeros (w - String.length (digits (Z.to_N n))) +:+ digits (Z.to_N n)) = true)
      by now rewrite all_digits_app, all_digits_zeros, all_digits_digits.
    assert (Hv : decimal_value
              (zeros (w - String.length (digits (Z.to_N n))) +:+ digits (Z.to_N n))
                 = Some (Z.to_N n))
      by now rewrite decimal_value_zeros, decimal_value_digits.
    destruct (zeros _ +:+ _) as [|c r] eqn:E.
    + exfalso. apply (digits_not_empty (Z.to_N n)).
      destruct (digits (Z.to_N n)); [reflexivity |].
      apply (f_equal String.length) in E. rewrite Str.length_app in E.
      simpl in E. lia.
    + unfold parse_0d. simpl in Hd. apply andb_prop in Hd as [Hc _].
      rewrite (digit_not_minus c Hc), Hv. simpl. f_equal. lia.
Qed.

Lemma format_0d_inj (w : nat) (n m : Z) : format_0d w n = format_0d w m -> n = m.
Proof.
  intros H. apply (f_equal parse_0d) in H.
  rewrite !parse_format_0d in H. congruence.
Qed.

Lemma length_zeros (k : nat) : String.length (zeros k) = k.
Proof. induction k as [|k IH]; [reflexivity | simpl; now rewrite IH]. Qed.

(** The printed width: never less than [w], and exactly [w] when the sign
    and the digits fit. *)
Lemma length_format_0d (w : nat) (n : Z) :
  String.length (format_0d w n) =
    Nat.max w ((if n <? 0 then 1 else 0) + String.length (digits (Z.abs_N n))).
Proof.
  unfold format_0d. destruct (n <? 0);
    rewrite !Str.length_app, length_zeros; simpl String.length; lia.
Qed.

End Fmt.

(** ** File names *)

Module Filename.

(** A run of digits ends at the first ['-']. *)
Lemma digits_sep (a b r1 r2 : string) :
  all_digits a = true -> all_digits b = true ->
  a +:+ String "-"%char r1 = b +:+ String "-"%char r2 -> a = b /\ r1 = r2.
Proof.
  revert b. induction a as [|c a IH]; intros [|d b] Ha Hb Heq;
    rewrite ?Str.app_nil_l, ?Str.app_cons in Heq.
  - injection Heq as ->. now split.
  - injection Heq as <- _. simpl in Hb. discriminate Hb.
  - injection Heq as -> _. simpl in Ha. discriminate Ha.
  - injection Heq as -> Heq. simpl in Ha, Hb.
    apply andb_prop in Ha as [_ Ha]. apply andb_prop in Hb as [_ Hb].
    destruct (IH b Ha Hb Heq) as [-> ->]. now split.
Qed.

(** [format_0d] prints an optional sign and then at least one digit. *)
Lemma format_0d_shape (w : nat) (n : Z) :
  exists c d, is_digit c = true /\ all_digits d = true /\
    format_0d w n = (if n <? 0 then "-" else "") +:+ String c d.
Proof.
  assert (H : forall k m, exists c d, is_digit c = true /\ all_digits d = true /\
                zeros k +:+ digits m = String c d).
  { intros k m.
    assert (Hd : all_digits (zeros k +:+ digits m) = true)
      by now rewrite Fmt.all_digits_app, Fmt.all_digits_zeros, Fmt.all_digits_digits.
    destruct (zeros k +:+ digits m) as [|c d] eqn:E.
    - exfalso. apply (Fmt.digits_not_empty m).
      destruct (digits m); [reflexivity |].
      apply (f_equal String.length) in E. rewrite Str.length_app in E.
      simpl in E. lia.
    - simpl in Hd. apply andb_prop in Hd as [Hc Hd]. now exists c, d. }
  unfold format_0d. destruct (n <? 0).
  - destruct (H (w - String.length "-" - String.length (digits (Z.abs_N n)))%nat
                (Z.abs_N n)) as (c & d & Hc & Hd & ->).
    now exists c, d.
  - destruct (H (w - String.length "" - String.length (digits (Z.abs_N n)))%nat
                (Z.abs_N n)) as (c & d & Hc & Hd & ->).
    now exists c, d.
Qed.

(** The number and what follows the separator are both determined by the
    file name. *)
Lemma format_0d_sep (w : nat) (n m : Z) (r1 r2 : string) :
  format_0d w n +:+ "-" +:+ r1 = format_0d w m +:+ "-" +:+ r2 -> n = m /\ r1 = r2.
Proof.
  intros Heq.
  assert (Hf : format_0d w n = format_0d w m /\ r1 = r2).
  { destruct (format_0d_shape w n) as (c & d & Hc & Hd & En).
    destruct (format_0d_shape w m) as (c' & d' & Hc' & Hd' & Em).
    rewrite En, Em in Heq |- *.
    assert (Hcd : all_digits (String c d) = true) by (simpl; now rewrite Hc, Hd).
    assert (Hcd' : all_digits (String c' d') = true) by (simpl; now rewrite Hc', Hd').
    destruct (n <? 0), (m <? 0);
      repeat rewrite ?Str.app_assoc, ?Str.app_cons, ?Str.app_nil_l in Heq.
    - injection Heq as Heq.
      destruct (digits_sep (String c d) (String c' d') r1 r2 Hcd Hcd') as [E ->];
        [rewrite !Str.app_cons; congruence | now rewrite E].
    - injection Heq as <- _. discriminate Hc'.
    - injection Heq as -> _. discriminate Hc.
    - destruct (digits_sep (String c d) (String c' d') r1 r2 Hcd Hcd') as [E ->];
        [rewrite !Str.app_cons; congruence | now rewrite E]. }
  destruct Hf as [Hf ->]. split; [exact (Fmt.format_0d_inj w n m Hf) | reflexivity].
Qed.

Lemma derive_filename_ok (p : prompt) (n : Z) (s : string) :
  num p = Some n -> scope p = Some s ->
  derive_filename p = Ok (base_dir +:+ "/" +:+ format_0d 2 n +:+ "-" +:+ s +:+ ".md").
Proof. intros Hn Hs. unfold derive_filename, filename_of. now rewrite Hn, Hs. Qed.

(** [derive_filename] returns a path exactly for the records that have
    both keys. *)
Lemma derive_filename_inv (p : prompt) (f : string) :
  derive_filename p = Ok f ->
  exists n s, num p = Some n /\ scope p = Some s /\
    f = base_dir +:+ "/" +:+ format_0d 2 n +:+ "-" +:+ s +:+ ".md".
Proof.
  unfold derive_filename, filename_of.
  destruct (num p) as [n|]; [|discriminate].
  destruct (scope p) as [s|]; [|discriminate].
  intros [= <-]. now exists n, s.
Qed.

(** Numbers below 100 print with at most two digits. *)
Lemma digits_below_100 (n : Z) :
  0 <= n < 100 -> (String.length (digits (Z.to_N n)) <= 2)%nat.
Proof.
  intros Hn.
  assert (H : forallb (fun k => (String.length (digits (N.of_nat k)) <=? 2)%nat)
                (seq 0 100) = true) by (vm_compute; reflexivity).
  rewrite forallb_forall in H.
  specialize (H (Z.to_nat n)).
  rewrite Nat.leb_le, Z_nat_N in H. apply H.
  apply in_seq. lia.
Qed.

End Filename.

(** C4: for a record with sequence number [n] and category tag [s],
    [derive_filename] returns the output directory, a ["/"], [n] printed in
    decimal and zero-padded to two characters, the separator ["-"], [s] and
    the extension [".md"]. The printed number reads back as [n], is never
    shorter than two characters, and is exactly two decimal digits when
    [0 <= n < 100]. Number 7 with tag "layout" gives [07-layout.md]. *)
Theorem derive_filename_spec (p : prompt) (n : Z) (s : string) :
  num p = Some n -> scope p = Some s ->
  derive_filename p = Ok (base_dir +:+ "/" +:+ format_0d 2 n +:+ "-" +:+ s +:+ ".md")
  /\ parse_0d (format_0d 2 n) = Some n
  /\ (2 <= String.length (format_0d 2 n))%nat
  /\ (0 <= n < 100 ->
      String.length (format_0d 2 n) = 2%nat /\ all_digits (format_0d 2 n) = true)
  /\ (n = 7 -> s = "layout" -> derive_filename p = Ok (base_dir +:+ "/07-layout.md")).
Proof.
  intros Hn Hs. pose proof (Filename.derive_filename_ok p n s Hn Hs) as Hok.
  split; [exact Hok |].
  split; [apply Fmt.parse_format_0d |].
  split; [rewrite Fmt.length_format_0d; lia |].
  split.
  - intros Hr. pose proof (Filename.digits_below_100 n Hr) as Hlen.
    rewrite Fmt.length_format_0d.
    destruct (Z.ltb_spec n 0) as [?|_]; [lia |].
    replace (Z.abs_N n) with (Z.to_N n) by (destruct n; [reflexivity..|lia]).
    split; [lia |].
    rewrite Fmt.format_0d_nonneg by lia.
    now rewrite Fmt.all_digits_app, Fmt.all_digits_zeros, Fmt.all_digits_digits.
  - intros -> ->. exact Hok.
Qed.

Lemma derive_filename_spec_witness :
  num layout_7 = Some 7 /\ scope layout_7 = Some "layout" /\
  derive_filename layout_7 = Ok (base_dir +:+ "/07-layout.md").
Proof.
  split; [reflexivity |]. split; [reflexivity |].
  exact (proj2 (proj2 (proj2 (proj2
    (derive_filename_spec layout_7 7 "layout" eq_refl eq_refl)))) eq_refl eq_refl).
Defined.

(** C6: two records whose (sequence number, category tag) pairs differ are
    given different paths. *)
Theorem derive_filename_injective (p q : prompt) (fp fq : string) :
  derive_filename p = Ok fp -> derive_filename q = Ok fq ->
  (num p, scope p) <> (num q, scope q) -> fp <> fq.
Proof.
  intros Hp Hq Hne Heq. apply Hne.
  destruct (Filename.derive_filename_inv p fp Hp) as (n & s & Hn & Hs & ->).
  destruct (Filename.derive_filename_inv q fq Hq) as (m & t & Hm & Ht & E).
  rewrite E in Heq. apply (inj (String.app base_dir)) in Heq.
  apply (inj (String.app "/")) in Heq.
  apply Filename.format_0d_sep in Heq as [-> Heq].
  apply Str.app_inv_tail in Heq as ->.
  now rewrite Hn, Hs, Hm, Ht.
Qed.

Lemma derive_filename_injective_witness :
  derive_filename F015 = Ok (base_dir +:+ "/15-plans.md") /\
  derive_filename F016 = Ok (base_dir +:+ "/16-plans.md") /\
  (num F015, scope F015) <> (num F016, scope F016) /\
  base_dir +:+ "/15-plans.md" <> base_dir +:+ "/16-plans.md".
Proof.
  assert (H : (num F015, scope F015) <> (num F016, scope F016)) by discriminate.
  split; [reflexivity |]. split; [reflexivity |]. split; [exact H |].
  exact (derive_filename_injective F015 F016 _ _ eq_refl eq_refl H).
Defined.

(** The paths of the built-in table are pairwise different. *)
Lemma prompts_paths_distinct : NoDup (map derive_filename prompts).
Proof. apply (bool_decide_unpack _). vm_compute. reflexivity. Qed.

(** ** Runs of the main loop *)

Module Run.

Lemma after_same (w : world) : after w (contents w) (stdout w) = w.
Proof. now destruct w. Qed.

Lemma outcome_after (w : world) (m : gmap string string) (out : string) (p : prompt) :
  outcome (after w m out) p = outcome w p.
Proof. reflexivity. Qed.

(** What the loop does depends on the platform only, not on the files and
    the console text. *)
Lemma process_after (w : world) (m : gmap string string) (out : string)
    (ps : list prompt) :
  process (after w m out) ps = process w ps.
Proof.
  induction ps as [|p ps IH]; [reflexivity |].
  simpl. now rewrite outcome_after, IH.
Qed.

Lemma write_prompt_outcome (p : prompt) (w : world) :
  write_prompt p w =
    match outcome w p with
    | Ok (n, f, c) =>
        (Ok tt, after w (<[f := c]> (contents w)) (stdout w +:+ created n +:+ nl))
    | Raise e => (Raise e, w)
    end.
Proof.
  unfold write_prompt, outcome, prepare.
  unfold mbind, io_bind, result_bind, lift, mret, result_ret.
  destruct (getitem "num" (num p)) as [n|e]; [|reflexivity].
  destruct (filename_of n p) as [f|e]; [|reflexivity].
  destruct (generate_prompt p) as [c|e]; [|reflexivity].
  unfold write_file, print. destruct (refused w f); [reflexivity |].
  destruct (decide (parent_dir f ∈ dirs w)); reflexivity.
Qed.

(** The loop performs the completed iterations of [process] and stops
    with its exception. *)
Lemma for_each_process (ps : list prompt) (w : world) :
  for_each write_prompt ps w =
    (match (process w ps).2 with None => Ok tt | Some e => Raise e end,
     after w (store (process w ps).1 (contents w))
       (stdout w +:+ created_lines (process w ps).1)).
Proof.
  revert w. induction ps as [|p ps IH]; intros w.
  - simpl. rewrite Str.app_nil_r. now destruct w.
  - simpl for_each. unfold mbind, io_bind. rewrite write_prompt_outcome.
    simpl process. destruct (outcome w p) as [[[n f] c]|e].
    + fold (@mbind io _). rewrite IH, process_after.
      destruct (process w ps) as [xs e]. simpl.
      unfold after. simpl. now rewrite !Str.app_assoc.
    + simpl. rewrite Str.app_nil_r. now destruct w.
Qed.

(** The whole run: the summary is printed when no iteration raised. *)
Lemma run_process (ps : list prompt) (w : world) :
  run ps w =
    match (process w ps).2 with
    | None =>
        (Ok tt, after w (store (process w ps).1 (contents w))
                  (stdout w +:+ created_lines (process w ps).1 +:+ summary ps +:+ nl))
    | Some e =>
        (Raise e, after w (store (process w ps).1 (contents w))
                    (stdout w +:+ created_lines (process w ps).1))
    end.
Proof.
  unfold run. unfold mbind, io_bind. rewrite for_each_process.
  destruct (process w ps) as [xs [e|]]; simpl; [reflexivity |].
  unfold print, summary, after. simpl. now rewrite !Str.app_assoc.
Qed.

(** A run stays on its platform. *)
Lemma run_platform (ps : list prompt) (w : world) :
  exists m out, (run ps w).2 = after w m out.
Proof. rewrite run_process. destruct (process w ps).2; simpl; eauto. Qed.

Lemma process_run (ps qs : list prompt) (w : world) :
  process (run ps w).2 qs = process w qs.
Proof. destruct (run_platform ps w) as (m & out & ->). apply process_after. Qed.

End Run.

Module Store.

(** The writes as a map laid over the files that were there. *)
Lemma store_union (xs : list (Z * string * string)) (m : gmap string string) :
  store xs m = list_to_map (reverse (entry <$> xs)) ∪ m.
Proof.
  unfold store. revert m. induction xs as [|x xs IH]; intros m.
  - simpl. now rewrite (left_id_L ∅ (∪)).
  - simpl foldl. rewrite IH. rewrite fmap_cons, reverse_cons, list_to_map_app.
    rewrite <- (assoc_L (∪)). f_equal.
    simpl. now rewrite insert_union_singleton_l, insert_empty.
Qed.

(** Writing the same texts again changes nothing. *)
Lemma store_idem (xs : list (Z * string * string)) (m : gmap string string) :
  store xs (store xs m) = store xs m.
Proof.
  rewrite !store_union. rewrite (assoc_L (∪)). f_equal.
  apply (idemp_L (∪)).
Qed.

Lemma store_snoc xs x (m : gmap string string) :
  store (xs ++ [x]) m = <[x.1.2 := x.2]> (store xs m).
Proof. unfold store. now rewrite foldl_app. Qed.

(** A path holds the text of the writes made to it when they all agree. *)
Lemma lookup_store_agree (xs : list (Z * string * string)) (m : gmap string string)
    (f c : string) :
  (exists x, x ∈ xs /\ x.1.2 = f) ->
  (forall x, x ∈ xs -> x.1.2 = f -> x.2 = c) ->
  store xs m !! f = Some c.
Proof.
  induction xs as [|x xs IH] using rev_ind; intros [y [Hy Hf]] Hall.
  - inversion Hy.
  - rewrite store_snoc. destruct (decide (x.1.2 = f)) as [E|E].
    + rewrite E, lookup_insert_eq. f_equal. apply Hall; [|exact E].
      apply elem_of_app. right. apply list_elem_of_singleton. reflexivity.
    + rewrite lookup_insert_ne by exact E. apply IH.
      * exists y. split; [|exact Hf].
        apply elem_of_app in Hy as [Hy|Hy]; [exact Hy |].
        apply list_elem_of_singleton in Hy. congruence.
      * intros z Hz. apply Hall. apply elem_of_app. now left.
Qed.

(** A path no write goes to keeps what it held. *)
Lemma lookup_store_other (xs : list (Z * string * string)) (m : gmap string string)
    (f : string) :
  (forall x, x ∈ xs -> x.1.2 <> f) -> store xs m !! f = m !! f.
Proof.
  induction xs as [|x xs IH] using rev_ind; intros Hall; [reflexivity |].
  rewrite store_snoc, lookup_insert_ne.
  - apply IH. intros z Hz. apply Hall. apply elem_of_app. now left.
  - apply Hall. apply elem_of_app. right. apply list_elem_of_singleton. reflexivity.
Qed.

End Store.

Module Process.

Lemma generate_prompt_ok (p : prompt) :
  is_Some (num p) -> is_Some (title p) -> is_Some (objective p) ->
  exists c, generate_prompt p = Ok c.
Proof.
  intros [n Hn] [t Ht] [o Ho]. unfold generate_prompt. rewrite Hn, Ht, Ho.
  simpl. eauto.
Qed.

Lemma prepare_inv (p : prompt) (n : Z) (f c : string) :
  prepare p = Ok (n, f, c) ->
  num p = Some n /\ derive_filename p = Ok f /\ generate_prompt p = Ok c.
Proof.
  unfold prepare, derive_filename.
  destruct (num p) as [m|]; [|discriminate]. simpl.
  destruct (filename_of m p) as [g|]; [|discriminate]. simpl.
  destruct (generate_prompt p) as [d|]; [|discriminate]. simpl.
  intros [= -> -> ->]. auto.
Qed.

Lemma prepare_complete (p : prompt) :
  complete p -> exists n f c, prepare p = Ok (n, f, c).
Proof.
  unfold complete, missing_key, prepare, filename_of, generate_prompt.
  destruct (num p) as [n|]; [|discriminate].
  destruct (scope p) as [s|]; [|discriminate].
  destruct (title p) as [t|]; [|discriminate].
  destruct (objective p) as [o|]; [|discriminate].
  intros _. simpl. eauto.
Qed.

Lemma prepare_missing (p : prompt) (k : string) :
  missing_key p = Some k -> prepare p = Raise (KeyError k).
Proof.
  unfold missing_key, prepare, filename_of, generate_prompt.
  destruct (num p) as [n|]; [|now intros [= <-]].
  destruct (scope p) as [s|]; [|now intros [= <-]].
  destruct (title p) as [t|]; [|now intros [= <-]].
  destruct (objective p) as [o|]; [|now intros [= <-]].
  discriminate.
Qed.

Lemma outcome_inv (w : world) (p : prompt) (n : Z) (g c : string) :
  outcome w p = Ok (n, g, c) ->
  exists f, num p = Some n /\ derive_filename p = Ok f /\ generate_prompt p = Ok c /\
    g = file_of w f /\ refused w f = false /\ parent_dir f ∈ dirs w.
Proof.
  unfold outcome. destruct (prepare p) as [[[m f] t]|e] eqn:E; [|discriminate].
  destruct (refused w f) eqn:Hr; [discriminate |].
  destruct (decide (parent_dir f ∈ dirs w)) as [Hd|Hd]; [|discriminate].
  intros [= -> <- ->]. apply prepare_inv in E as (? & ? & ?). exists f. auto 10.
Qed.

Lemma outcome_file_id (w : world) (p : prompt) (n : Z) (g c : string) :
  outcome w p = Ok (n, g, c) -> file_id w p = Ok g /\ generate_prompt p = Ok c.
Proof.
  intros H. apply outcome_inv in H as (f & _ & Hf & Hg & -> & _).
  unfold file_id. now rewrite Hf.
Qed.

Lemma outcome_ok (w : world) (p : prompt) (f : string) :
  complete p -> derive_filename p = Ok f -> refused w f = false ->
  parent_dir f ∈ dirs w ->
  exists n c, outcome w p = Ok (n, file_of w f, c).
Proof.
  intros Hc Hf Hr Hd. destruct (prepare_complete p Hc) as (n & g & c & E).
  pose proof (prepare_inv _ _ _ _ E) as (_ & Hg & _).
  assert (g = f) as -> by congruence.
  exists n, c. unfold outcome. rewrite E, Hr.
  now destruct (decide (parent_dir f ∈ dirs w)).
Qed.

Lemma outcome_no_dir (w : world) (p : prompt) (f : string) :
  complete p -> derive_filename p = Ok f -> refused w f = false ->
  parent_dir f ∉ dirs w ->
  outcome w p = Raise (FileNotFoundError f).
Proof.
  intros Hc Hf Hr Hd. destruct (prepare_complete p Hc) as (n & g & c & E).
  pose proof (prepare_inv _ _ _ _ E) as (_ & Hg & _).
  assert (g = f) as -> by congruence.
  unfold outcome. rewrite E, Hr.
  now destruct (decide (parent_dir f ∈ dirs w)).
Qed.

Lemma outcome_refused (w : world) (p : prompt) (f : string) :
  complete p -> derive_filename p = Ok f -> refused w f = true ->
  outcome w p = Raise (OpenError f).
Proof.
  intros Hc Hf Hr. destruct (prepare_complete p Hc) as (n & g & c & E).
  pose proof (prepare_inv _ _ _ _ E) as (_ & Hg & _).
  assert (g = f) as -> by congruence.
  unfold outcome. now rewrite E, Hr.
Qed.

Lemma outcome_missing (w : world) (p : prompt) (k : string) :
  missing_key p = Some k -> outcome w p = Raise (KeyError k).
Proof. intros H. unfold outcome. now rewrite (prepare_missing p k H). Qed.

(** The loop completes the iterations of a prefix of the records and is
    stopped by the first one that raises. *)
Lemma process_spec (w : world) (ps : list prompt) :
  exists ps1 ps2, ps = ps1 ++ ps2 /\
    Forall2 (fun p x => outcome w p = Ok x) ps1 (process w ps).1 /\
    match (process w ps).2 with
    | None => ps2 = []
    | Some e => exists p r, ps2 = p :: r /\ outcome w p = Raise e
    end.
Proof.
  induction ps as [|p ps IH].
  - exists [], []. simpl. auto.
  - simpl. destruct (outcome w p) as [x|e] eqn:E.
    + destruct IH as (ps1 & ps2 & -> & H1 & H2).
      destruct (process w (ps1 ++ ps2)) as [xs e]. simpl in *.
      exists (p :: ps1), ps2. auto.
    + exists [], (p :: ps). simpl. split; [reflexivity |].
      split; [constructor |]. eauto.
Qed.

(** When every iteration completes, so does the loop. *)
Lemma process_all (w : world) (ps : list prompt) :
  Forall (fun p => exists x, outcome w p = Ok x) ps ->
  (process w ps).2 = None /\
  Forall2 (fun p x => outcome w p = Ok x) ps (process w ps).1.
Proof.
  induction 1 as [|p ps [x Hx] _ IH]; simpl; [auto |].
  rewrite Hx. destruct (process w ps) as [xs e]. simpl in *.
  destruct IH as [-> IH]. auto.
Qed.

(** The first record that raises stops the loop after the iterations
    before it. *)
Lemma process_stop (w : world) (ps1 ps2 : list prompt) (p : prompt) (e : exn) :
  Forall (fun p => exists x, outcome w p = Ok x) ps1 ->
  outcome w p = Raise e ->
  process w (ps1 ++ p :: ps2) = ((process w ps1).1, Some e).
Proof.
  induction 1 as [|q ps1 [x Hx] _ IH]; intros He; simpl.
  - now rewrite He.
  - rewrite Hx, (IH He). now destruct (process w ps1).
Qed.

End Process.

Module RunFacts.

Lemma dirs_run (ps : list prompt) (w : world) : dirs (run ps w).2 = dirs w.
Proof. now destruct (Run.run_platform ps w) as (m & out & ->). Qed.

Lemma contents_run (ps : list prompt) (w : world) :
  contents (run ps w).2 = store (process w ps).1 (contents w).
Proof. rewrite Run.run_process. now destruct (process w ps).2. Qed.

Lemma result_run (ps : list prompt) (w : world) :
  (run ps w).1 =
    match (process w ps).2 with None => Ok tt | Some e => Raise e end.
Proof. rewrite Run.run_process. now destruct (process w ps).2. Qed.

Lemma ready_outcome (w : world) (ps : list prompt) :
  Forall complete ps -> Forall (dir_ready w) ps -> Forall (accepted w) ps ->
  Forall (fun p => exists x, outcome w p = Ok x) ps.
Proof.
  intros Hc Hd Ha. rewrite Forall_forall in *. intros p Hp.
  pose proof (Hc p Hp) as Hcp. pose proof (Hd p Hp) as Hdp.
  pose proof (Ha p Hp) as Hap.
  destruct (Process.prepare_complete p Hcp) as (n & f & c & E).
  pose proof (Process.prepare_inv _ _ _ _ E) as (_ & Hf & _).
  unfold dir_ready in Hdp. unfold accepted in Hap. rewrite Hf in Hdp, Hap.
  destruct (Process.outcome_ok w p f Hcp Hf Hap Hdp) as (n' & c' & Ho). eauto.
Qed.

(** The writes of a loop that completes: one per record, at its path, with
    its text. *)
Lemma writes_of_records (w : world) (ps : list prompt)
    (xs : list (Z * string * string)) :
  Forall2 (fun p x => outcome w p = Ok x) ps xs ->
  (forall p, p ∈ ps -> exists x, x ∈ xs /\ outcome w p = Ok x) /\
  (forall x, x ∈ xs -> exists p, p ∈ ps /\ outcome w p = Ok x).
Proof.
  induction 1 as [|p x ps xs Hpx _ [IH1 IH2]].
  - split; intros ? H; inversion H.
  - split.
    + intros q Hq. apply elem_of_cons in Hq as [->|Hq].
      * exists x. split; [left | exact Hpx].
      * destruct (IH1 q Hq) as (y & Hy & Ho). exists y. split; [now right | exact Ho].
    + intros y Hy. apply elem_of_cons in Hy as [->|Hy].
      * exists p. split; [left | exact Hpx].
      * destruct (IH2 y Hy) as (q & Hq & Ho). exists q. split; [now right | exact Ho].
Qed.

(** Records of a list without repeated files that name the same file are
    the same record. *)
Lemma same_file_same_record (w : world) (ps : list prompt) (p q : prompt) :
  NoDup (file_id w <$> ps) -> p ∈ ps -> q ∈ ps ->
  file_id w p = file_id w q -> p = q.
Proof.
  induction ps as [|a ps IH]; intros Hnd Hp Hq Heq; [inversion Hp |].
  rewrite fmap_cons in Hnd. apply NoDup_cons in Hnd as [Ha Hnd].
  apply elem_of_cons in Hp as [->|Hp]; apply elem_of_cons in Hq as [->|Hq].
  - reflexivity.
  - exfalso. apply Ha. rewrite Heq. now apply list_elem_of_fmap_2.
  - exfalso. apply Ha. rewrite <- Heq. now apply list_elem_of_fmap_2.
  - now apply IH.
Qed.

(** A first record whose directory does not exist stops the run before
    anything is written or printed. *)
Lemma run_first_dir_missing (p : prompt) (r : list prompt) (w : world) (f : string) :
  complete p -> derive_filename p = Ok f -> refused w f = false ->
  parent_dir f ∉ dirs w ->
  run (p :: r) w = (Raise (FileNotFoundError f), w).
Proof.
  intros Hc Hf Hr Hd. rewrite Run.run_process.
  pose proof (Process.process_stop w [] r p (FileNotFoundError f)
                (Forall_nil_2 _) (Process.outcome_no_dir w p f Hc Hf Hr Hd)) as E.
  change ([] ++ p :: r) with (p :: r) in E. rewrite E. simpl.
  rewrite Str.app_nil_r. now destruct w.
Qed.

(** After a run that completes, the file of each record holds its text. *)
Lemma file_of_record (ps : list prompt) (w : world) (p : prompt) (f c : string) :
  Forall complete ps -> Forall (dir_ready w) ps -> Forall (accepted w) ps ->
  NoDup (file_id w <$> ps) ->
  p ∈ ps -> derive_filename p = Ok f -> generate_prompt p = Ok c ->
  contents (run ps w).2 !! file_of w f = Some c.
Proof.
  intros Hc Hd Ha Hnd Hp Hf Hg. rewrite contents_run.
  destruct (Process.process_all w ps (ready_outcome w ps Hc Hd Ha)) as [_ H2].
  destruct (writes_of_records _ _ _ H2) as [Hin Hout].
  assert (Hid : file_id w p = Ok (file_of w f)) by (unfold file_id; now rewrite Hf).
  apply Store.lookup_store_agree.
  - destruct (Hin p Hp) as ([[n g] t] & Hx & Ho). exists (n, g, t).
    split; [exact Hx |]. apply Process.outcome_file_id in Ho as [Hg' _].
    simpl. congruence.
  - intros [[n g] t] Hx Hxf. simpl in Hxf. subst g.
    destruct (Hout _ Hx) as (q & Hq & Ho).
    apply Process.outcome_file_id in Ho as [Hqf Hqg].
    assert (p = q) as <- by (apply (same_file_same_record w ps); congruence).
    simpl. congruence.
Qed.

End RunFacts.

(** C9: a second run over the same records leaves every file with the
    contents the first run gave it: each text is written over what the path
    held, not added to it. This holds for every record list and every
    starting state, also when the run is stopped by an exception. *)
Theorem run_twice_same_contents (ps : list prompt) (w : world) :
  contents (run ps (run ps w).2).2 = contents (run ps w).2
  /\ forall f, contents (run ps (run ps w).2).2 !! f = contents (run ps w).2 !! f.
Proof.
  assert (H : contents (run ps (run ps w).2).2 = contents (run ps w).2).
  { rewrite (RunFacts.contents_run ps (run ps w).2), Run.process_run.
    rewrite RunFacts.contents_run. apply Store.store_idem. }
  split; [exact H | intros f; now rewrite H].
Qed.

(** The two runs of the built-in table, from a disk with the output
    directory: the file of the last record is its text both times. *)
Example main_twice :
  contents (main (main output_dir_only).2).2 !! (base_dir +:+ "/32-testing.md")
    = match generate_prompt F032 with Ok c => Some c | Raise _ => None end.
Proof. vm_compute. reflexivity. Qed.

(** C2, as stated, fails: on a disk where the output directory does not
    exist the run of the built-in table is stopped at its first record by
    [FileNotFoundError]; no directory is created and no file is produced. *)
Lemma run_without_output_dir :
  Forall complete prompts /\
  (base_dir ∉ dirs empty_disk) /\
  main empty_disk =
    (Raise (FileNotFoundError (base_dir +:+ "/10-shadcn-data.md")), empty_disk) /\
  (main empty_disk).1 <> Ok tt.
Proof.
  split; [apply (bool_decide_unpack _); vm_compute; reflexivity |].
  split; [apply (bool_decide_unpack _); vm_compute; reflexivity |].
  assert (H : main empty_disk =
    (Raise (FileNotFoundError (base_dir +:+ "/10-shadcn-data.md")), empty_disk))
    by (vm_compute; reflexivity).
  split; [exact H | rewrite H; discriminate].
Qed.

(** C2, amended: no run creates a directory: the directories after a run
    are those before it. For records that have their required keys and name
    pairwise different files: on a disk where the directory of every path
    exists and the platform accepts every path for writing, the run
    completes and the file of each record (with an ASCII title) holds its
    full rendered text; on a disk where the directory of the first path does
    not exist (and nothing else is wrong with that path) the run is stopped
    there by [FileNotFoundError] and leaves the disk as it was. *)
Theorem run_writes_into_existing_dir (ps : list prompt) (w : world) :
  Forall complete ps -> NoDup (file_id w <$> ps) ->
  dirs (run ps w).2 = dirs w
  /\ (Forall (dir_ready w) ps -> Forall (accepted w) ps ->
      (run ps w).1 = Ok tt /\
      forall p, p ∈ ps -> ascii_title p ->
        exists f c, derive_filename p = Ok f /\ generate_prompt p = Ok c /\
          contents (run ps w).2 !! file_of w f = Some c)
  /\ (forall p r f, ps = p :: r -> derive_filename p = Ok f ->
        refused w f = false -> parent_dir f ∉ dirs w ->
        run ps w = (Raise (FileNotFoundError f), w)).
Proof.
  intros Hc Hnd.
  split; [apply RunFacts.dirs_run |].
  split.
  - intros Hd Ha. split.
    { rewrite RunFacts.result_run.
      destruct (Process.process_all w ps (RunFacts.ready_outcome w ps Hc Hd Ha))
        as [-> _]. reflexivity. }
    intros p Hp _.
    assert (Hcp : complete p) by (rewrite Forall_forall in Hc; now apply Hc).
    destruct (Process.prepare_complete p Hcp) as (n & f & c & E).
    pose proof (Process.prepare_inv p n f c E) as (_ & Hf & Hg).
    exists f, c. split; [exact Hf |]. split; [exact Hg |].
    now apply (RunFacts.file_of_record ps w p f c).
  - intros p r f -> Hf Hr Hd.
    apply Forall_cons in Hc as [Hcp _].
    now apply RunFacts.run_first_dir_missing.
Qed.

Lemma run_writes_into_existing_dir_witness :
  Forall complete prompts /\ NoDup (file_id output_dir_only <$> prompts) /\
  (Forall (dir_ready output_dir_only) prompts /\
   Forall (accepted output_dir_only) prompts /\
   (main output_dir_only).1 = Ok tt /\ ascii_title F013 /\
   exists f c, derive_filename F013 = Ok f /\ generate_prompt F013 = Ok c /\
     contents (main output_dir_only).2 !! file_of output_dir_only f = Some c) /\
  (NoDup (file_id empty_disk <$> prompts) /\
   refused empty_disk (base_dir +:+ "/10-shadcn-data.md") = false /\
   (parent_dir (base_dir +:+ "/10-shadcn-data.md") ∉ dirs empty_disk) /\
   main empty_disk =
     (Raise (FileNotFoundError (base_dir +:+ "/10-shadcn-data.md")), empty_disk)).
Proof.
  assert (Hc : Forall complete prompts)
    by (apply (bool_decide_unpack _); vm_compute; reflexivity).
  assert (Hn : NoDup (file_id output_dir_only <$> prompts))
    by (apply (bool_decide_unpack _); vm_compute; reflexivity).
  assert (Hn' : NoDup (file_id empty_disk <$> prompts))
    by (apply (bool_decide_unpack _); vm_compute; reflexivity).
  assert (Hd : Forall (dir_ready output_dir_only) prompts)
    by (apply (bool_decide_unpack _); vm_compute; reflexivity).
  assert (Ha : Forall (accepted output_dir_only) prompts)
    by (apply (bool_decide_unpack _); vm_compute; reflexivity).
  assert (Hin : F013 ∈ prompts) by (apply (bool_decide_unpack _); vm_compute; reflexivity).
  assert (Hno : parent_dir (base_dir +:+ "/10-shadcn-data.md") ∉ dirs empty_disk)
    by (apply (bool_decide_unpack _); vm_compute; reflexivity).
  destruct (run_writes_into_existing_dir prompts output_dir_only Hc Hn)
    as (_ & Hgood & _).
  destruct (run_writes_into_existing_dir prompts empty_disk Hc Hn')
    as (_ & _ & Hbad).
  destruct (Hgood Hd Ha) as [Hok Hfiles].
  split; [exact Hc |]. split; [exact Hn |].
  split.
  - split; [exact Hd |]. split; [exact Ha |]. split; [exact Hok |].
    split; [reflexivity |]. exact (Hfiles F013 Hin eq_refl).
  - split; [exact Hn' |]. split; [reflexivity |]. split; [exact Hno |].
    exact (Hbad F010 _ (base_dir +:+ "/10-shadcn-data.md") eq_refl eq_refl eq_refl Hno).
Defined.

(** A path that the platform refuses stops the run although its directory
    exists: the file name of [long_tag_10] has 258 bytes. *)
Example run_refused_path :
  complete long_tag_10 /\ dir_ready short_names_disk long_tag_10 /\
  ~ accepted short_names_disk long_tag_10 /\
  exists f, derive_filename long_tag_10 = Ok f /\
    run [long_tag_10] short_names_disk = (Raise (OpenError f), short_names_disk).
Proof.
  split; [apply (bool_decide_unpack _); vm_compute; reflexivity |].
  split; [apply (bool_decide_unpack _); vm_compute; reflexivity |].
  split; [apply (bool_decide_unpack _); vm_compute; reflexivity |].
  eexists. split; [reflexivity |]. vm_compute. reflexivity.
Qed.

(** Two different paths that name one file: the documents of [F010] and of
    [alias_10] go to the same file, which ends up with the second. *)
Example run_aliased_paths :
  derive_filename F010 <> derive_filename alias_10 /\
  file_id dotdot_disk F010 = file_id dotdot_disk alias_10 /\
  (run [F010; alias_10] dotdot_disk).1 = Ok tt /\
  size (contents (run [F010; alias_10] dotdot_disk).2) = 1%nat /\
  contents (run [F010; alias_10] dotdot_disk).2 !! (base_dir +:+ "/10-shadcn-data.md")
    = render alias_10.
Proof.
  split; [apply (bool_decide_unpack _); vm_compute; reflexivity |].
  repeat split; vm_compute; reflexivity.
Qed.

(** C3, as stated, fails. A record set with a gap in its numbers and one
    with a repeated number are processed to the end like any other; a record
    without its title is found only when the loop reaches it, after the
    document of the record before it was written. *)
Lemma invalid_records_not_rejected :
  (valid_records [F010; F012] = false /\
   (run [F010; F012] output_dir_only).1 = Ok tt /\
   is_Some (contents (run [F010; F012] output_dir_only).2
              !! (base_dir +:+ "/12-shadcn-charts.md"))) /\
  (valid_records [F010; F010] = false /\
   (run [F010; F010] output_dir_only).1 = Ok tt) /\
  (valid_records [F010; untitled_11] = false /\
   (run [F010; untitled_11] output_dir_only).1 = Raise (KeyError "title") /\
   is_Some (contents (run [F010; untitled_11] output_dir_only).2
              !! (base_dir +:+ "/10-shadcn-data.md"))).
Proof.
  repeat split; try (vm_compute; reflexivity);
    apply (bool_decide_unpack _); vm_compute; reflexivity.
Qed.

(** C3, amended: no record set is rejected for its sequence numbers, and
    nothing is checked before the loop writes. On a disk where the directory
    of every path exists and the platform accepts every path for writing,
    records that have their required keys are processed to the end whatever
    their sequence numbers are. When such records are followed by a record
    that lacks a required key, the run is stopped by a [KeyError] that names
    the first key that record lacks, when the loop reaches it: the files are
    then those that the run over the records before it leaves. *)
Theorem run_checks_required_keys_only (ps1 ps2 : list prompt) (w : world) :
  Forall complete ps1 -> Forall (dir_ready w) ps1 -> Forall (accepted w) ps1 ->
  (run ps1 w).1 = Ok tt
  /\ forall p k, missing_key p = Some k ->
       (run (ps1 ++ p :: ps2) w).1 = Raise (KeyError k) /\
       contents (run (ps1 ++ p :: ps2) w).2 = contents (run ps1 w).2.
Proof.
  intros Hc Hd Ha. pose proof (RunFacts.ready_outcome w ps1 Hc Hd Ha) as Hall.
  split.
  - rewrite RunFacts.result_run.
    now destruct (Process.process_all w ps1 Hall) as [-> _].
  - intros p k Hk.
    pose proof (Process.process_stop w ps1 ps2 p (KeyError k) Hall
                  (Process.outcome_missing w p k Hk)) as Hstop.
    split.
    + rewrite RunFacts.result_run, Hstop. reflexivity.
    + rewrite !RunFacts.contents_run, Hstop. reflexivity.
Qed.

Lemma run_checks_required_keys_only_witness :
  Forall complete [F010; F012] /\ Forall (dir_ready output_dir_only) [F010; F012] /\
  Forall (accepted output_dir_only) [F010; F012] /\
  valid_records [F010; F012] = false /\
  (run [F010; F012] output_dir_only).1 = Ok tt /\
  missing_key untitled_11 = Some "title" /\
  (run [F010; F012; untitled_11] output_dir_only).1 = Raise (KeyError "title") /\
  contents (run [F010; F012; untitled_11] output_dir_only).2
    = contents (run [F010; F012] output_dir_only).2.
Proof.
  assert (Hc : Forall complete [F010; F012])
    by (apply (bool_decide_unpack _); vm_compute; reflexivity).
  assert (Hd : Forall (dir_ready output_dir_only) [F010; F012])
    by (apply (bool_decide_unpack _); vm_compute; reflexivity).
  assert (Ha : Forall (accepted output_dir_only) [F010; F012])
    by (apply (bool_decide_unpack _); vm_compute; reflexivity).
  destruct (run_checks_required_keys_only [F010; F012] [] output_dir_only Hc Hd Ha)
    as [Hok Hstop].
  split; [exact Hc |]. split; [exact Hd |]. split; [exact Ha |].
  split; [reflexivity |]. split; [exact Hok |]. split; [reflexivity |].
  exact (Hstop untitled_11 "title" eq_refl).
Defined.

(** ** The document as a sequence of sections *)

Module Sections.

Lemma add_opt (b : bool) (content s : string) :
  (if b then content +:+ s else content) = content +:+ opt b s.
Proof. destruct b; [reflexivity | now rewrite Str.app_nil_r]. Qed.

Lemma add_if (b : bool) (content x y : string) :
  (if b then content +:+ x else content +:+ y) = content +:+ (if b then x else y).
Proof. now destruct b. Qed.

Lemma add_file_rows (files : list string) (content : string) :
  fold_left (fun content f => content +:+ file_row f) files content
    = content +:+ file_rows files.
Proof.
  revert content. induction files as [|f r IH]; intros content; simpl.
  - now rewrite Str.app_nil_r.
  - now rewrite IH, Str.app_assoc.
Qed.

Lemma add_footer (n : Z) (content : string) :
  match (if n <? 32 then Some (n + 1) else None) with
  | Some m => if truthy_int m then content +:+ next_footer m
              else content +:+ complete_footer
  | None => content +:+ complete_footer
  end = content +:+ footer n.
Proof. unfold footer. destruct (n <? 32); [|reflexivity]. now destruct (truthy_int (n + 1)). Qed.

(** [generate_prompt] returns the sections of the record, concatenated. *)
Lemma generate_prompt_sections (p : prompt) (n : Z) (t o : string) :
  num p = Some n -> title p = Some t -> objective p = Some o ->
  generate_prompt p = Ok (concat_all (sections p n t o)).
Proof.
  intros Hn Ht Ho. unfold generate_prompt. rewrite Hn, Ht, Ho.
  cbn [getitem mbind result_bind mret result_ret]. f_equal.
  rewrite add_footer, !add_opt, add_if, add_file_rows.
  unfold sections, concat_all. now rewrite !Str.app_assoc, Str.app_nil_r.
Qed.

Lemma generate_prompt_inv (p : prompt) (c : string) :
  generate_prompt p = Ok c ->
  exists n t o, num p = Some n /\ title p = Some t /\ objective p = Some o /\
    c = concat_all (sections p n t o).
Proof.
  intros H.
  destruct (num p) as [n|] eqn:Hn; [|unfold generate_prompt in H; now rewrite Hn in H].
  destruct (title p) as [t|] eqn:Ht;
    [|unfold generate_prompt in H; now rewrite Hn, Ht in H].
  destruct (objective p) as [o|] eqn:Ho;
    [|unfold generate_prompt in H; now rewrite Hn, Ht, Ho in H].
  rewrite (generate_prompt_sections p n t o Hn Ht Ho) in H. injection H as <-.
  now exists n, t, o.
Qed.

End Sections.

(** ** The cross-reference footer *)

Module Footer.


Lemma complete_footer_sentinel :
  complete_footer = nl +:+ "## Next" +:+ nl +:+ nl +:+ sentinel +:+ nl.
Proof. reflexivity. Qed.


Lemma concat_all_snoc (l : list string) (x : string) :
  concat_all (l ++ [x]) = concat_all l +:+ x.
Proof.
  induction l as [|a l IH]; simpl.
  - now rewrite Str.app_nil_r.
  - now rewrite IH, Str.app_assoc.
Qed.

(** Every document ends with the footer of its number. *)
Lemma ends_with_footer (p : prompt) (n : Z) (c : string) :
  num p = Some n -> generate_prompt p = Ok c -> ends_with (footer n) c.
Proof.
  intros Hn Hc. destruct (Sections.generate_prompt_inv p c Hc)
    as (n' & t & o & Hn' & _ & _ & ->).
  assert (n' = n) as -> by congruence.
  unfold sections.
  match goal with
  | |- ends_with _ (concat_all ?l) =>
      change l with (removelast l ++ [footer n])
  end.
  rewrite concat_all_snoc. eexists. reflexivity.
Qed.

Lemma footer_below_32 (n : Z) : n < 32 -> n <> -1 -> footer n = next_footer (n + 1).
Proof.
  intros H1 H2. unfold footer, truthy_int.
  destruct (Z.ltb_spec n 32); [|lia].
  destruct (Z.eqb_spec (n + 1) 0); [lia | reflexivity].
Qed.



End Footer.

(** The number -1 is the one number below 32 whose document closes with the
    sentinel: its successor 0 is false as a condition. *)
Example footer_of_minus_one : footer (-1) = complete_footer.
Proof. reflexivity. Qed.






(** ** The lines of a text *)

Module Lines.

Lemma lines_cons_nl (r : string) : lines (String "010"%char r) = "" :: lines r.
Proof. reflexivity. Qed.

Lemma lines_cons_other (c : ascii) (r : string) :
  Ascii.eqb c "010"%char = false -> lines (String c r) = lines_from (String c "") r.
Proof. intros H. unfold lines_from. simpl. rewrite H. reflexivity. Qed.

Lemma lines_not_nil (s : string) : lines s <> [].
Proof.
  induction s as [|c s IH]; [discriminate |]. simpl.
  destruct (Ascii.eqb c "010"%char); [discriminate |].
  now destruct (lines s).
Qed.

Lemma lines_nl (r : string) : lines (nl +:+ r) = "" :: lines r.
Proof. reflexivity. Qed.

Lemma lines_from_nl (acc r : string) : lines_from acc (nl +:+ r) = acc :: lines r.
Proof. unfold lines_from. rewrite lines_nl. now rewrite Str.app_nil_r. Qed.

Lemma lines_from_nil (acc : string) : lines_from acc "" = [acc].
Proof. unfold lines_from. simpl. now rewrite Str.app_nil_r. Qed.

Lemma lines_from_atom (acc a r : string) :
  single_line a = true -> lines_from acc (a +:+ r) = lines_from (acc +:+ a) r.
Proof.
  revert acc. induction a as [|c a IH]; intros acc Ha.
  - now rewrite Str.app_nil_l, Str.app_nil_r.
  - simpl in Ha. apply andb_prop in Ha as [Hc Ha]. apply negb_true_iff in Hc.
    rewrite Str.app_cons. unfold lines_from at 1.
    rewrite (lines_cons_other c _ Hc). fold (lines_from (String c "") (a +:+ r)).
    rewrite IH by exact Ha. unfold lines_from.
    pose proof (lines_not_nil r). destruct (lines r) as [|l ls]; [congruence |].
    f_equal. change (String c "" +:+ a) with (String c a).
    now rewrite !Str.app_assoc.
Qed.

Lemma lines_atom (a r : string) :
  single_line a = true -> lines (a +:+ r) = lines_from a r.
Proof.
  intros Ha. transitivity (lines_from "" (a +:+ r)).
  - unfold lines_from. pose proof (lines_not_nil (a +:+ r)).
    now destruct (lines (a +:+ r)).
  - now rewrite lines_from_atom.
Qed.

Lemma single_line_app (a b : string) :
  single_line (a +:+ b) = single_line a && single_line b.
Proof.
  induction a as [|c a IH]; [reflexivity |].
  rewrite Str.app_cons. simpl. now rewrite IH, andb_assoc.
Qed.

Lemma single_line_digits (s : string) : all_digits s = true -> single_line s = true.
Proof.
  induction s as [|c s IH]; [reflexivity |]. simpl. intros H.
  apply andb_prop in H as [Hc Hs]. rewrite (IH Hs), andb_true_r.
  destruct c as [[|] [|] [|] [|] [|] [|] [|] [|]]; try reflexivity; discriminate Hc.
Qed.

Lemma single_line_format_0d (w : nat) (n : Z) : single_line (format_0d w n) = true.
Proof.
  destruct (Filename.format_0d_shape w n) as (c & d & Hc & Hd & ->).
  rewrite single_line_app.
  assert (H : single_line (String c d) = true)
    by (apply single_line_digits; simpl; now rewrite Hc, Hd).
  rewrite H. now destruct (n <? 0).
Qed.

Lemma single_line_lower (s : string) : single_line s = true -> single_line (lower s) = true.
Proof.
  induction s as [|c s IH]; [reflexivity |]. simpl. intros H.
  apply andb_prop in H as [Hc Hs]. rewrite (IH Hs), andb_true_r.
  destruct c as [[|] [|] [|] [|] [|] [|] [|] [|]]; try reflexivity; discriminate Hc.
Qed.

Lemma single_line_join (sep : string) (l : list string) :
  single_line sep = true -> forallb single_line l = true ->
  single_line (join sep l) = true.
Proof.
  intros Hsep. induction l as [|x l IH]; [reflexivity |]. simpl forallb. intros H.
  apply andb_prop in H as [Hx Hl]. destruct l as [|y l]; [exact Hx |].
  change (join sep (x :: y :: l)) with (x +:+ sep +:+ join sep (y :: l)).
  now rewrite !single_line_app, Hx, Hsep, (IH Hl).
Qed.

Lemma single_line_digits_N (n : N) : single_line (digits n) = true.
Proof. apply single_line_digits, Fmt.all_digits_digits. Qed.

(** The lines of a joined list of one-line texts. *)
Lemma lines_join (l : list string) (r : string) :
  forallb single_line l = true ->
  lines (join nl l +:+ nl +:+ r) = bullets l ++ lines r.
Proof.
  induction l as [|x l IH]; intros H.
  - reflexivity.
  - simpl in H. apply andb_prop in H as [Hx Hl]. destruct l as [|y l].
    + simpl join. rewrite lines_atom by exact Hx. now rewrite lines_from_nl.
    + change (join nl (x :: y :: l)) with (x +:+ nl +:+ join nl (y :: l)).
      rewrite !Str.app_assoc. rewrite lines_atom by exact Hx.
      rewrite lines_from_nl, (IH Hl). reflexivity.
Qed.

Lemma forallb_fmap (f : string -> string) (l : list string) :
  (forall x, single_line x = true -> single_line (f x) = true) ->
  forallb single_line l = true -> forallb single_line (f <$> l) = true.
Proof.
  intros Hf. induction l as [|x l IH]; [reflexivity |]. intros H.
  simpl in H. apply andb_prop in H as [Hx Hl].
  rewrite fmap_cons. simpl forallb. rewrite (Hf x Hx). exact (IH Hl).
Qed.

End Lines.

(** ** The document as a sequence of lines *)

Ltac single_side :=
  first
    [ reflexivity
    | assumption
    | apply Lines.single_line_format_0d
    | apply Lines.single_line_lower; assumption
    | apply Lines.single_line_join; [reflexivity | assumption] ].

Ltac lines_step :=
  first
    [ rewrite Lines.lines_nl
    | rewrite Lines.lines_from_nl
    | rewrite Lines.lines_join by assumption
    | rewrite Lines.lines_atom by single_side
    | rewrite Lines.lines_from_atom by single_side ].

Ltac lines_of_section :=
  rewrite ?Str.app_assoc; repeat lines_step;
  rewrite ?Str.app_assoc, <- ?app_assoc; reflexivity.

Module Document.

Lemma whole_lines_app (a b : string) (la lb : list string) :
  whole_lines a la -> whole_lines b lb -> whole_lines (a +:+ b) (la ++ lb).
Proof.
  intros Ha Hb r. now rewrite Str.app_assoc, Ha, Hb, app_assoc.
Qed.

Lemma whole_lines_opt (b : bool) (s : string) (ls : list string) :
  (b = true -> whole_lines s ls) -> whole_lines (opt b s) (opt_lines b ls).
Proof. destruct b; intros H; [now apply H | intros r; reflexivity]. Qed.

Lemma bullet_single (a b : string) (l : list string) :
  single_line a = true -> single_line b = true ->
  forallb single_line l = true ->
  forallb single_line ((fun d => a +:+ d +:+ b) <$> l) = true.
Proof.
  intros Ha Hb. apply Lines.forallb_fmap. intros x Hx.
  now rewrite !Lines.single_line_app, Ha, Hx, Hb.
Qed.

Lemma header_whole (n : Z) (t o : string) (deps : list string) :
  single_line t = true -> single_line o = true -> forallb single_line deps = true ->
  whole_lines (header n t o deps) (header_lines n t o deps).
Proof.
  intros Ht Ho Hd r.
  assert (Hb : forallb single_line (dep_bullet <$> deps) = true)
    by (apply (bullet_single "- **" "**: Completed"); auto).
  unfold header, header_lines. lines_of_section.
Qed.

Lemma decisions_whole (l : list string) :
  forallb single_line l = true -> whole_lines (decisions_section l) (decisions_lines l).
Proof.
  intros Hl r.
  assert (Hb : forallb single_line (decision_bullet <$> l) = true)
    by (apply (bullet_single "- **" "**: See decisions.md for details"); auto).
  unfold decisions_section, decisions_lines. lines_of_section.
Qed.

Lemma edge_cases_whole (l : list string) :
  forallb single_line l = true -> whole_lines (edge_cases_section l) (edge_cases_lines l).
Proof.
  intros Hl r.
  assert (Hb : forallb single_line (edge_case_bullet <$> l) = true)
    by (apply (bullet_single "- **" "**: See edge-cases.md for handling details"); auto).
  unfold edge_cases_section, edge_cases_lines. lines_of_section.
Qed.

Lemma code_refs_whole (l : list string) :
  forallb single_line l = true -> whole_lines (code_refs_section l) (code_refs_lines l).
Proof.
  intros Hl r.
  assert (Hb : forallb single_line (code_ref_bullet <$> l) = true)
    by (apply (bullet_single "- `" "` - Implementation patterns"); auto).
  unfold code_refs_section, code_refs_lines. lines_of_section.
Qed.

Lemma constraints_whole : whole_lines constraints_section constraints_lines.
Proof. intros r. unfold constraints_section, constraints_lines. lines_of_section. Qed.

Lemma install_whole (cmds : string) :
  single_line cmds = true -> whole_lines (install_line cmds) (install_lines cmds).
Proof. intros H r. unfold install_line, install_lines. lines_of_section. Qed.

Lemma files_heading_whole : whole_lines files_heading files_heading_lines.
Proof. intros r. unfold files_heading, files_heading_lines. lines_of_section. Qed.

Lemma file_rows_whole (files : list string) :
  forallb single_line files = true ->
  whole_lines (file_rows files) (file_row_line <$> files).
Proof.
  induction files as [|f files IH]; intros H r; [reflexivity |].
  simpl in H. apply andb_prop in H as [Hf Hr].
  simpl file_rows. rewrite fmap_cons, Str.app_assoc.
  unfold file_row at 1, file_row_line at 1.
  rewrite ?Str.app_assoc. repeat lines_step. rewrite (IH Hr).
  rewrite ?Str.app_assoc. reflexivity.
Qed.

Lemma commands_whole (cmds : string) :
  single_line cmds = true -> whole_lines (commands_section cmds) (commands_lines cmds).
Proof. intros H r. unfold commands_section, commands_lines. lines_of_section. Qed.

Lemma no_commands_whole : whole_lines no_commands_section no_commands_lines.
Proof. intros r. unfold no_commands_section, no_commands_lines. lines_of_section. Qed.

Lemma acceptance_and_commit_whole (n : Z) (t o s : string) :
  single_line t = true -> single_line o = true -> single_line s = true ->
  whole_lines (acceptance_and_commit n t o s) (acceptance_lines ++ commit_lines n t o s).
Proof.
  intros Ht Ho Hs r.
  unfold acceptance_and_commit, acceptance_lines, commit_lines. lines_of_section.
Qed.

Lemma decisions_line_whole (l : list string) :
  forallb single_line l = true ->
  whole_lines (decisions_line l) (decisions_line_lines l).
Proof. intros H r. unfold decisions_line, decisions_line_lines. lines_of_section. Qed.

Lemma edge_cases_line_whole (l : list string) :
  forallb single_line l = true ->
  whole_lines (edge_cases_line l) (edge_cases_line_lines l).
Proof. intros H r. unfold edge_cases_line, edge_cases_line_lines. lines_of_section. Qed.

Lemma attribution_whole : whole_lines attribution attribution_lines.
Proof. intros r. unfold attribution, attribution_lines. lines_of_section. Qed.

Lemma footer_whole (n : Z) : whole_lines (footer n) (footer_lines n).
Proof.
  intros r. unfold footer, footer_lines.
  destruct (n <? 32); [destruct (truthy_int (n + 1)) |];
    unfold next_footer, next_footer_lines, complete_footer, complete_footer_lines;
    lines_of_section.
Qed.

End Document.

Module DocumentLines.

Import Document.

Lemma one_line_fields_inv (p : prompt) :
  one_line_fields p = true ->
  single_line (get (title p) "") = true /\
  single_line (get (objective p) "") = true /\
  forallb single_line (get (depends p) []) = true /\
  forallb single_line (get (files p) []) = true /\
  single_line (get (commands p) "") = true /\
  single_line (get (scope p) "viewer") = true /\
  forallb single_line (get (decisions p) []) = true /\
  forallb single_line (get (edge_cases p) []) = true /\
  forallb single_line (get (code_refs p) []) = true.
Proof.
  unfold one_line_fields. intros H.
  repeat (apply andb_prop in H as [H ?]). auto 10.
Qed.

Lemma whole_lines_nil : whole_lines "" [].
Proof. intros r. reflexivity. Qed.

(** The lines of a document whose fields are one line each. *)
Lemma lines_document (p : prompt) (n : Z) (t o : string) :
  title p = Some t -> objective p = Some o -> one_line_fields p = true ->
  lines (concat_all (sections p n t o)) = document_lines p n t o.
Proof.
  intros Ht Ho Hp.
  destruct (one_line_fields_inv p Hp)
    as (Ht' & Ho' & Hdeps & Hfiles & Hcmds & Hscope & Hds & Hes & Hrs).
  rewrite Ht in Ht'. rewrite Ho in Ho'. simpl in Ht', Ho'.
  assert (H : whole_lines (concat_all (sections p n t o))
                (removelast (document_lines p n t o))).
  { unfold sections, concat_all, document_lines.
    repeat rewrite (app_assoc _ _ [""]).
    rewrite removelast_last.
    rewrite (app_assoc acceptance_lines).
    repeat match goal with
           | |- whole_lines (_ +:+ _) (_ ++ _) => apply whole_lines_app
           end.
    - now apply header_whole.
    - apply whole_lines_opt. intros _. now apply decisions_whole.
    - apply whole_lines_opt. intros _. now apply edge_cases_whole.
    - apply whole_lines_opt. intros _. now apply code_refs_whole.
    - apply constraints_whole.
    - apply whole_lines_opt. intros _. now apply install_whole.
    - apply files_heading_whole.
    - now apply file_rows_whole.
    - destruct (truthy_str (get (commands p) ""));
        [now apply commands_whole | apply no_commands_whole].
    - now apply acceptance_and_commit_whole.
    - apply whole_lines_opt. intros _. now apply decisions_line_whole.
    - apply whole_lines_opt. intros _. now apply edge_cases_line_whole.
    - apply attribution_whole.
    - rewrite <- (app_nil_r (footer_lines n)).
      apply whole_lines_app; [apply footer_whole | apply whole_lines_nil]. }
  specialize (H ""). rewrite Str.app_nil_r in H. rewrite H.
  unfold document_lines. repeat rewrite (app_assoc _ _ [""]).
  now rewrite removelast_last.
Qed.

End DocumentLines.

(** ** The headings of the conditional sections *)



Module Headings.










End Headings.

Module Conditional.

Lemma document_of (p : prompt) (c : string) :
  generate_prompt p = Ok c -> one_line_fields p = true ->
  exists n t o, num p = Some n /\ title p = Some t /\ objective p = Some o /\
    lines c = document_lines p n t o.
Proof.
  intros Hc Hp.
  destruct (Sections.generate_prompt_inv p c Hc) as (n & t & o & Hn & Ht & Ho & ->).
  exists n, t, o. repeat split; try assumption.
  now apply DocumentLines.lines_document.
Qed.




End Conditional.


(** Every document is its header, then the decisions section iff the
    record has decisions, the edge cases section iff it has edge cases and
    the code references section iff it has code references, then the
    constraints; nothing is put in the place of a section that is left out. *)
Lemma conditional_section_texts (p : prompt) (c : string) :
  generate_prompt p = Ok c ->
  exists n t o rest,
    num p = Some n /\ title p = Some t /\ objective p = Some o /\
    c = header n t o (get (depends p) [])
        +:+ (if decide (get (decisions p) [] = []) then ""
             else decisions_section (get (decisions p) []))
        +:+ (if decide (get (edge_cases p) [] = []) then ""
             else edge_cases_section (get (edge_cases p) []))
        +:+ (if decide (get (code_refs p) [] = []) then ""
             else code_refs_section (get (code_refs p) []))
        +:+ constraints_section +:+ rest.
Proof.
  intros Hc.
  destruct (Sections.generate_prompt_inv p c Hc) as (n & t & o & Hn & Ht & Ho & ->).
  exists n, t, o. eexists. repeat (split; [assumption |]).
  cbv beta zeta delta [sections]. cbn [concat_all].
  assert (E : forall (l : list string) (s : string),
            opt (truthy_list l) s = if decide (l = []) then "" else s).
  { intros [|x l] s; [reflexivity |]. simpl. now destruct (decide (x :: l = [])). }
  rewrite !E. reflexivity.
Qed.




(** ** The commit message *)

Module Commit.

Lemma concat_all_app (l1 l2 : list string) :
  concat_all (l1 ++ l2) = concat_all l1 +:+ concat_all l2.
Proof.
  induction l1 as [|a l1 IH]; simpl; [reflexivity |].
  now rewrite IH, Str.app_assoc.
Qed.

(** The commit block as the sections build it. *)
Lemma commit_block (n : Z) (t o s : string) (ds es : list string) :
  exists pre post,
    acceptance_and_commit n t o s
      +:+ opt (truthy_list ds) (decisions_line ds)
      +:+ opt (truthy_list es) (edge_cases_line es)
      +:+ attribution
    = pre +:+ (commit_open +:+ nl +:+ commit_message n t o s ds es +:+ "EOF" +:+ nl)
        +:+ post.
Proof.
  eexists (nl +:+ "## Acceptance Criteria" +:+ nl +:+ nl +:+
           "- [ ] All files created/modified as specified" +:+ nl +:+
           "- [ ] TypeScript compiles without errors" +:+ nl +:+
           "- [ ] Functionality works as expected" +:+ nl +:+ nl +:+
           "## Verification" +:+ nl +:+ nl +:+ "```bash" +:+ nl +:+
           "cd C:/Users/bobby/src/claude/claude-hall-monitor/hooks/viewer" +:+ nl +:+
           "bun run tsc --noEmit" +:+ nl +:+ "```" +:+ nl +:+ nl +:+
           "## Commit" +:+ nl +:+ nl +:+ "```bash" +:+ nl +:+
           "git add hooks/viewer/" +:+ nl),
          (")" +:+ dq +:+ nl +:+ "```" +:+ nl).
  unfold acceptance_and_commit, commit_open, commit_message, attribution,
    decisions_line, edge_cases_line.
  rewrite !Str.app_assoc. reflexivity.
Qed.

End Commit.

Module Occurs.

Lemma occurs_app_l (needle a b : string) :
  occurs needle a -> occurs needle (a +:+ b).
Proof.
  intros (pre & post & ->). exists pre, (post +:+ b). now rewrite !Str.app_assoc.
Qed.

Lemma occurs_app_r (needle a b : string) :
  occurs needle b -> occurs needle (a +:+ b).
Proof.
  intros (pre & post & ->). exists (a +:+ pre), post. now rewrite !Str.app_assoc.
Qed.

End Occurs.

(** The commit block in a document, as text and as consecutive lines. *)
Lemma commit_block_in_document (p : prompt) (n : Z) (t o s c : string) :
  num p = Some n -> title p = Some t -> objective p = Some o -> scope p = Some s ->
  generate_prompt p = Ok c ->
  occurs
    (commit_open +:+ nl +:+
     commit_message n t o s (get (decisions p) []) (get (edge_cases p) []) +:+
     "EOF" +:+ nl) c
  /\ (one_line_fields p = true ->
      exists pre post,
        lines c = pre ++ [commit_open]
                    ++ commit_message_lines n t o s (get (decisions p) [])
                         (get (edge_cases p) [])
                    ++ ["EOF"] ++ post).
Proof.
  intros Hn Ht Ho Hs Hc.
  rewrite (Sections.generate_prompt_sections p n t o Hn Ht Ho) in Hc.
  assert (c = concat_all (sections p n t o)) as -> by congruence. clear Hc.
  assert (Hscope : get (scope p) "viewer" = s) by now rewrite Hs.
  split.
  - cbv beta zeta delta [sections]. cbn [concat_all]. rewrite Hscope.
    do 9 apply Occurs.occurs_app_r.
    destruct (Commit.commit_block n t o s (get (decisions p) []) (get (edge_cases p) []))
      as (pre & post & E).
    rewrite <- (Str.app_assoc (opt _ (edge_cases_line _))).
    rewrite <- (Str.app_assoc (opt _ (decisions_line _))).
    rewrite <- (Str.app_assoc (acceptance_and_commit n t o s)).
    rewrite E. apply Occurs.occurs_app_l. now exists pre, post.
  - intros Hp. rewrite (DocumentLines.lines_document p n t o Ht Ho Hp).
    cbv beta zeta delta [document_lines]. rewrite Hscope.
    exists (header_lines n t o (get (depends p) [])
            ++ opt_lines (truthy_list (get (decisions p) []))
                 (decisions_lines (get (decisions p) []))
            ++ opt_lines (truthy_list (get (edge_cases p) []))
                 (edge_cases_lines (get (edge_cases p) []))
            ++ opt_lines (truthy_list (get (code_refs p) []))
                 (code_refs_lines (get (code_refs p) []))
            ++ constraints_lines
            ++ opt_lines (truthy_str (get (commands p) ""))
                 (install_lines (get (commands p) ""))
            ++ files_heading_lines
            ++ (file_row_line <$> get (files p) [])
            ++ (if truthy_str (get (commands p) "")
                then commands_lines (get (commands p) "") else no_commands_lines)
            ++ removelast acceptance_lines),
           ([")" +:+ dq; "```"] ++ footer_lines n ++ [""]).
    unfold commit_message_lines, commit_lines, decisions_line_lines, edge_cases_line_lines.
    rewrite <- !app_assoc. reflexivity.
Qed.

(** C7: every document of a record with an ASCII title holds the commit
    block: the line that opens the here-document, then the first line
    [feat(<scope>): <title in lower case>] whose scope is the category tag of
    the record, an empty line, the objective, an empty line, the line
    [Implements: F<number, three digits>], then one line with the decisions
    joined by commas when there are decisions and one with the edge cases
    when there are edge cases, and the attribution, closed by the line
    [EOF]. For a record whose texts are one line each these are consecutive
    lines of the document. *)
Theorem commit_message_block (p : prompt) (n : Z) (t o s c : string) :
  num p = Some n -> title p = Some t -> objective p = Some o -> scope p = Some s ->
  is_ascii t = true ->
  generate_prompt p = Ok c ->
  occurs
    ("git commit -m " +:+ dq +:+ "$(cat <<'EOF'" +:+ nl +:+
     "feat(" +:+ s +:+ "): " +:+ lower t +:+ nl +:+
     nl +:+
     o +:+ nl +:+
     nl +:+
     "Implements: F" +:+ format_0d 3 n +:+ nl +:+
     (if decide (get (decisions p) [] = []) then ""
      else "Decisions: " +:+ join ", " (get (decisions p) []) +:+ nl) +:+
     (if decide (get (edge_cases p) [] = []) then ""
      else "Edge Cases: " +:+ join ", " (get (edge_cases p) []) +:+ nl) +:+
     nl +:+
     attribution_mark +:+ " Generated with [Claude Code](https://claude.com/claude-code)" +:+ nl +:+
     nl +:+
     "Co-Authored-By: Claude Opus 4.5 <noreply@anthropic.com>" +:+ nl +:+
     "EOF" +:+ nl) c
  /\ (one_line_fields p = true ->
      exists pre post,
        lines c =
          pre ++ [ "git commit -m " +:+ dq +:+ "$(cat <<'EOF'";
                   "feat(" +:+ s +:+ "): " +:+ lower t;
                   "";
                   o;
                   "";
                   "Implements: F" +:+ format_0d 3 n ]
              ++ (if decide (get (decisions p) [] = []) then []
                  else [ "Decisions: " +:+ join ", " (get (decisions p) []) ])
              ++ (if decide (get (edge_cases p) [] = []) then []
                  else [ "Edge Cases: " +:+ join ", " (get (edge_cases p) []) ])
              ++ [ "";
                   attribution_mark +:+ " Generated with [Claude Code](https://claude.com/claude-code)";
                   "";
                   "Co-Authored-By: Claude Opus 4.5 <noreply@anthropic.com>";
                   "EOF" ]
              ++ post).
Proof.
  intros Hn Ht Ho Hs _ Hc.
  destruct (commit_block_in_document p n t o s c Hn Ht Ho Hs Hc) as [Hocc Hlines].
  assert (E : forall (A : Type) (l : list string) (x y : A),
            (if decide (l = []) then x else y) = if truthy_list l then y else x).
  { intros A [|a l] x y; [reflexivity |]. simpl. now destruct (decide (a :: l = [])). }
  rewrite !E. split.
  - unfold commit_open, commit_message, opt in Hocc.
    rewrite ?Str.app_assoc in Hocc. rewrite ?Str.app_assoc. exact Hocc.
  - intros Hp. destruct (Hlines Hp) as (pre & post & H).
    exists pre, post. rewrite H.
    unfold commit_open, commit_message_lines, opt_lines.
    rewrite <- !app_assoc. reflexivity.
Qed.

Lemma commit_message_block_witness :
  is_ascii "Build Active Orchestrations Component" = true /\
  one_line_fields F016 = true /\
  exists c, generate_prompt F016 = Ok c /\
    exists pre post,
      lines c = pre ++ [ "git commit -m " +:+ dq +:+ "$(cat <<'EOF'";
                         "feat(plans): build active orchestrations component";
                         "";
                         "Create active-orchestrations component with SSE integration for realtime updates.";
                         "";
                         "Implements: F016";
                         "Decisions: D001, D007";
                         "Edge Cases: EC001, EC002, EC003";
                         "";
                         attribution_mark +:+ " Generated with [Claude Code](https://claude.com/claude-code)";
                         "";
                         "Co-Authored-By: Claude Opus 4.5 <noreply@anthropic.com>";
                         "EOF" ] ++ post.
Proof.
  assert (Hp : one_line_fields F016 = true) by (vm_compute; reflexivity).
  split; [reflexivity |]. split; [exact Hp |].
  destruct (generate_prompt F016) as [c|e] eqn:E; [|vm_compute in E; discriminate E].
  exists c. split; [reflexivity |].
  destruct (proj2 (commit_message_block F016 16 _ _ _ c eq_refl eq_refl eq_refl eq_refl
                     eq_refl E) Hp)
    as (pre & post & H).
  exists pre, post. exact H.
Defined.

(** ** The console *)

Module Console.

Lemma created_lines_unlines (xs : list (Z * string * string)) :
  created_lines xs = unlines (created <$> written_numbers xs).
Proof.
  induction xs as [|x xs IH]; [reflexivity |].
  simpl. now rewrite IH.
Qed.

Lemma single_line_created (n : Z) : single_line (created n) = true.
Proof.
  unfold created. rewrite Lines.single_line_app, Lines.single_line_format_0d.
  reflexivity.
Qed.

Lemma lines_unlines (l : list string) (r : string) :
  forallb single_line l = true -> lines (unlines l +:+ r) = l ++ lines r.
Proof.
  induction l as [|x l IH]; intros H; [reflexivity |].
  simpl in H. apply andb_prop in H as [Hx Hl].
  simpl unlines. rewrite !Str.app_assoc, (Lines.lines_atom x) by exact Hx.
  now rewrite Lines.lines_from_nl, (IH Hl).
Qed.

Lemma forallb_created (ns : list Z) : forallb single_line (created <$> ns) = true.
Proof.
  induction ns as [|n ns IH]; [reflexivity |].
  rewrite fmap_cons.
  change (forallb single_line (created n :: (created <$> ns)))
    with (single_line (created n) && forallb single_line (created <$> ns)).
  now rewrite single_line_created, IH.
Qed.

Lemma outcome_fields (w : world) (ps : list prompt)
    (xs : list (Z * string * string)) :
  Forall2 (fun p x => outcome w p = Ok x) ps xs ->
  Forall2 (fun p x => num p = Some x.1.1 /\ file_id w p = Ok x.1.2) ps xs.
Proof.
  intros H. eapply Forall2_impl; [exact H |].
  intros p [[n f] c] Ho.
  pose proof (Process.outcome_file_id _ _ _ _ _ Ho) as [? ?].
  apply Process.outcome_inv in Ho as (g & ? & _). auto.
Qed.

(** The numbers of the completed iterations are those of their records. *)
Lemma numbers_of_written (w : world) (ps : list prompt)
    (xs : list (Z * string * string)) (ns : list Z) :
  Forall2 (fun p x => outcome w p = Ok x) ps xs ->
  Forall2 (fun p n => num p = Some n) ps ns ->
  written_numbers xs = ns.
Proof.
  intros H. revert ns. induction H as [|p [[n f] c] ps xs Ho _ IH]; intros ns Hns.
  - now inversion Hns.
  - inversion Hns as [|? m ? ns' Hm Hns']; subst.
    apply Process.outcome_inv in Ho as (g & Hn & _).
    unfold written_numbers in *. rewrite fmap_cons, (IH ns' Hns'). simpl.
    congruence.
Qed.

End Console.

(** C8: a run writes to the console one line [Created F<number, three
    digits>] for each record whose document it wrote, in the order of the
    records, and nothing else while it loops. A run that completes has
    written every record and then prints an empty line and one summary line
    with the number of records; a run stopped by an exception has written a
    proper prefix of the records and prints no summary. For records with
    their required keys, on a disk where the directory of every path exists
    and the platform accepts every path for writing, the run completes: the
    console then holds one line for each record, with its number, and the
    summary. *)
Theorem console_output (ps : list prompt) (w : world) :
  (exists (xs : list (Z * string * string)) (out : string),
    Forall2 (fun p x => num p = Some x.1.1 /\ file_id w p = Ok x.1.2)
      (take (length xs) ps) xs
    /\ contents (run ps w).2 = store xs (contents w)
    /\ stdout (run ps w).2 = stdout w +:+ out
    /\ match (run ps w).1 with
       | Ok _ =>
           length xs = length ps
           /\ out = unlines ((fun n => "Created F" +:+ format_0d 3 n)
                               <$> written_numbers xs)
                      +:+ unlines [""; "Total prompts created: "
                                         +:+ digits (N.of_nat (length ps))]
           /\ lines out = ((fun n => "Created F" +:+ format_0d 3 n)
                              <$> written_numbers xs)
                            ++ [""; "Total prompts created: "
                                      +:+ digits (N.of_nat (length ps)); ""]
       | Raise _ =>
           (length xs < length ps)%nat
           /\ out = unlines ((fun n => "Created F" +:+ format_0d 3 n)
                               <$> written_numbers xs)
           /\ lines out = ((fun n => "Created F" +:+ format_0d 3 n)
                              <$> written_numbers xs) ++ [""]
       end)
  /\ (forall ns : list Z,
        Forall2 (fun p n => num p = Some n) ps ns ->
        Forall complete ps -> Forall (dir_ready w) ps -> Forall (accepted w) ps ->
        (run ps w).1 = Ok tt
        /\ stdout (run ps w).2 =
             stdout w
             +:+ unlines ((fun n => "Created F" +:+ format_0d 3 n) <$> ns)
             +:+ unlines [""; "Total prompts created: "
                                +:+ digits (N.of_nat (length ps))]).
Proof.
  change (fun n : Z => "Created F" +:+ format_0d 3 n) with created.
  change (digits (N.of_nat (length ps))) with (str_len ps).
  split.
  - destruct (Process.process_spec w ps) as (ps1 & ps2 & Hps & Hxs & Hend).
    rewrite Run.run_process.
    destruct (process w ps) as [xs e]. simpl in Hxs, Hend. simpl.
    assert (Htake : take (length xs) ps = ps1).
    { rewrite Hps, <- (Forall2_length _ _ _ Hxs). apply take_app_length. }
    destruct e as [e|]; simpl.
    + exists xs, (unlines (created <$> written_numbers xs)).
      rewrite Htake. split; [now apply (Console.outcome_fields w) |].
      split; [reflexivity |].
      split; [now rewrite Console.created_lines_unlines |].
      destruct Hend as (q & r & -> & _).
      split; [rewrite Hps, length_app, <- (Forall2_length _ _ _ Hxs); simpl; lia |].
      split; [reflexivity |].
      rewrite <- (Str.app_nil_r (unlines _)).
      now rewrite Console.lines_unlines by apply Console.forallb_created.
    + exists xs, (unlines (created <$> written_numbers xs)
                    +:+ unlines [""; "Total prompts created: " +:+ str_len ps]).
      rewrite Htake. split; [now apply (Console.outcome_fields w) |].
      split; [reflexivity |].
      split.
      { rewrite Console.created_lines_unlines. unfold summary. simpl unlines.
        now rewrite !Str.app_assoc, !Str.app_nil_r. }
      subst ps2. rewrite app_nil_r in Hps. subst ps1.
      split; [now rewrite (Forall2_length _ _ _ Hxs) |].
      split; [reflexivity |].
      rewrite Console.lines_unlines by apply Console.forallb_created.
      f_equal. rewrite <- (Str.app_nil_r (unlines _)).
      rewrite Console.lines_unlines; [reflexivity |].
      simpl. unfold str_len. rewrite Lines.single_line_app, Lines.single_line_digits_N.
      reflexivity.
  - intros ns Hns Hc Hd Ha.
    destruct (Process.process_all w ps (RunFacts.ready_outcome w ps Hc Hd Ha))
      as [Hnone Hxs].
    rewrite Run.run_process, Hnone. simpl. split; [reflexivity |].
    rewrite Console.created_lines_unlines, (Console.numbers_of_written w ps _ ns Hxs Hns).
    unfold summary. simpl unlines.
    now rewrite !Str.app_assoc, !Str.app_nil_r.
Qed.

Lemma console_output_witness :
  Forall2 (fun p n => num p = Some n) prompts
    [10; 11; 12; 13; 14; 15; 16; 17; 18; 19; 20; 21; 22; 23; 24; 25; 26; 27; 28; 29;
     30; 31; 32] /\
  Forall complete prompts /\ Forall (dir_ready output_dir_only) prompts /\
  Forall (accepted output_dir_only) prompts /\
  (main output_dir_only).1 = Ok tt /\
  stdout (main output_dir_only).2 =
    unlines ["Created F010"; "Created F011"; "Created F012"; "Created F013";
             "Created F014"; "Created F015"; "Created F016"; "Created F017";
             "Created F018"; "Created F019"; "Created F020"; "Created F021";
             "Created F022"; "Created F023"; "Created F024"; "Created F025";
             "Created F026"; "Created F027"; "Created F028"; "Created F029";
             "Created F030"; "Created F031"; "Created F032";
             ""; "Total prompts created: 23"].
Proof.
  assert (Hns : Forall2 (fun p n => num p = Some n) prompts
            [10; 11; 12; 13; 14; 15; 16; 17; 18; 19; 20; 21; 22; 23; 24; 25; 26; 27; 28;
             29; 30; 31; 32])
    by (unfold prompts; repeat constructor).
  assert (Hc : Forall complete prompts)
    by (apply (bool_decide_unpack _); vm_compute; reflexivity).
  assert (Hd : Forall (dir_ready output_dir_only) prompts)
    by (apply (bool_decide_unpack _); vm_compute; reflexivity).
  assert (Ha : Forall (accepted output_dir_only) prompts)
    by (apply (bool_decide_unpack _); vm_compute; reflexivity).
  split; [exact Hns |]. split; [exact Hc |]. split; [exact Hd |]. split; [exact Ha |].
  exact (proj2 (console_output prompts output_dir_only) _ Hns Hc Hd Ha).
Defined.

(** The lines of the console of the built-in table on a disk with the
    output directory: the last print ends its line, so an empty text follows
    the summary. *)
Example main_console :
  lines (stdout (main output_dir_only).2) =
    ["Created F010"; "Created F011"; "Created F012"; "Created F013"; "Created F014";
     "Created F015"; "Created F016"; "Created F017"; "Created F018"; "Created F019";
     "Created F020"; "Created F021"; "Created F022"; "Created F023"; "Created F024";
     "Created F025"; "Created F026"; "Created F027"; "Created F028"; "Created F029";
     "Created F030"; "Created F031"; "Created F032";
     ""; "Total prompts created: 23"; ""].
Proof. vm_compute. reflexivity. Qed.

(** * Further properties of the script *)

(** ** Keys *)

(** X2: the category tag has a default, ["viewer"], in [generate_prompt]
    only. A record without the tag renders, with [feat(viewer): ...] as the
    first line of its commit message (the title, here ASCII text, in lower
    case), but the loop reads the tag with [p['scope']] before it renders:
    its iteration raises [KeyError] and leaves the disk and the console as
    they were. *)
Theorem scope_default_unreachable (p : prompt) (n : Z) (t o : string) (w : world) :
  num p = Some n -> title p = Some t -> objective p = Some o -> scope p = None ->
  is_ascii t = true ->
  (exists c, generate_prompt p = Ok c /\
     occurs (commit_open +:+ nl +:+ "feat(viewer): " +:+ lower t +:+ nl) c)
  /\ derive_filename p = Raise (KeyError "scope")
  /\ write_prompt p w = (Raise (KeyError "scope"), w).
Proof.
  intros Hn Ht Ho Hs _. split; [|split].
  - exists (concat_all (sections p n t o)).
    split; [now apply Sections.generate_prompt_sections |].
    cbv beta zeta delta [sections]. cbn [concat_all]. rewrite Hs. simpl get.
    do 9 apply Occurs.occurs_app_r. apply Occurs.occurs_app_l.
    unfold acceptance_and_commit, commit_open.
    eexists (nl +:+ "## Acceptance Criteria" +:+ nl +:+ nl +:+
             "- [ ] All files created/modified as specified" +:+ nl +:+
             "- [ ] TypeScript compiles without errors" +:+ nl +:+
             "- [ ] Functionality works as expected" +:+ nl +:+ nl +:+
             "## Verification" +:+ nl +:+ nl +:+ "```bash" +:+ nl +:+
             "cd C:/Users/bobby/src/claude/claude-hall-monitor/hooks/viewer" +:+ nl +:+
             "bun run tsc --noEmit" +:+ nl +:+ "```" +:+ nl +:+ nl +:+
             "## Commit" +:+ nl +:+ nl +:+ "```bash" +:+ nl +:+
             "git add hooks/viewer/" +:+ nl), _.
    rewrite !Str.app_assoc. reflexivity.
  - unfold derive_filename, filename_of. now rewrite Hn, Hs.
  - rewrite Run.write_prompt_outcome. unfold outcome, prepare, filename_of.
    now rewrite Hn, Hs.
Qed.

Lemma scope_default_unreachable_witness :
  scope untagged_5 = None /\
  is_ascii "Untagged Work" = true /\
  (exists c, generate_prompt untagged_5 = Ok c /\
     occurs (commit_open +:+ nl +:+ "feat(viewer): untagged work" +:+ nl) c) /\
  write_prompt untagged_5 output_dir_only = (Raise (KeyError "scope"), output_dir_only).
Proof.
  split; [reflexivity |]. split; [reflexivity |].
  destruct (scope_default_unreachable untagged_5 5 _ _ output_dir_only
              eq_refl eq_refl eq_refl eq_refl eq_refl) as (H1 & _ & H3).
  split; [exact H1 | exact H3].
Defined.

(** ** Files *)

Module Disk.

Lemma store_app (xs ys : list (Z * string * string)) (m : gmap string string) :
  store (xs ++ ys) m = store ys (store xs m).
Proof. unfold store. apply foldl_app. Qed.

(** Writing never removes a file. *)
Lemma store_keeps (xs : list (Z * string * string)) (m : gmap string string) (f : string) :
  is_Some (m !! f) -> is_Some (store xs m !! f).
Proof.
  induction xs as [|x xs IH] using rev_ind; intros H; [exact H |].
  rewrite Store.store_snoc. destruct (decide (x.1.2 = f)) as [->|E].
  - rewrite lookup_insert_eq. eauto.
  - rewrite lookup_insert_ne by exact E. now apply IH.
Qed.

(** A file holds the text of the last write made to it. *)
Lemma lookup_store_last (xs : list (Z * string * string)) (m : gmap string string)
    (f : string) :
  store xs m !! f =
    match last (filter (fun x => x.1.2 = f) xs) with
    | Some x => Some x.2
    | None => m !! f
    end.
Proof.
  induction xs as [|x xs IH] using rev_ind; [reflexivity |].
  rewrite Store.store_snoc, filter_app, last_app.
  destruct (decide (x.1.2 = f)) as [E|E].
  - rewrite filter_cons_True by exact E. simpl. now rewrite E, lookup_insert_eq.
  - rewrite filter_cons_False by exact E. simpl.
    rewrite lookup_insert_ne by exact E. exact IH.
Qed.

(** The completed iterations are those of a prefix of the records. *)
Lemma written_from_records (w : world) (ps : list prompt)
    (x : Z * string * string) :
  x ∈ (process w ps).1 -> exists p, p ∈ ps /\ outcome w p = Ok x.
Proof.
  destruct (Process.process_spec w ps) as (ps1 & ps2 & -> & H & _).
  intros Hx. destruct (RunFacts.writes_of_records _ _ _ H) as [_ Hout].
  destruct (Hout x Hx) as (p & Hp & Ho). exists p. split; [|exact Ho].
  apply elem_of_app. now left.
Qed.

(** The last record with a file and the last write to it. *)
Lemma last_write_of_record (w : world) (ps : list prompt)
    (xs : list (Z * string * string)) (g : string) :
  Forall2 (fun p x => outcome w p = Ok x) ps xs ->
  match last_with_file w g ps, last (filter (fun x => x.1.2 = g) xs) with
  | Some p, Some x => render p = Some x.2
  | None, None => True
  | _, _ => False
  end.
Proof.
  unfold last_with_file.
  induction 1 as [|p [[n h] c] ps xs Ho _ IH]; [exact I |].
  apply Process.outcome_file_id in Ho as [Hf Hg].
  destruct (decide (h = g)) as [->|E].
  - rewrite (filter_cons_True _ p) by exact Hf.
    rewrite (filter_cons_True _ (n, g, c)) by reflexivity.
    rewrite !last_cons.
    destruct (last (filter _ ps)) as [q|], (last (filter _ xs)) as [y|];
      simpl in *; try exact IH; try contradiction.
    unfold render. now rewrite Hg.
  - rewrite (filter_cons_False _ p) by (rewrite Hf; congruence).
    rewrite (filter_cons_False _ (n, h, c)) by exact E. exact IH.
Qed.

Lemma process_app (w : world) (ps1 ps2 : list prompt) :
  (process w ps1).2 = None ->
  process w (ps1 ++ ps2) = ((process w ps1).1 ++ (process w ps2).1, (process w ps2).2).
Proof.
  induction ps1 as [|p ps1 IH]; simpl.
  - intros _. now destruct (process w ps2).
  - destruct (outcome w p) as [x|e]; [|discriminate].
    destruct (process w ps1) as [xs e]. simpl. intros ->.
    rewrite (IH eq_refl). reflexivity.
Qed.

(** The files of the completed iterations are those of the records. *)
Lemma files_of_written (w : world) (ps : list prompt)
    (xs : list (Z * string * string)) :
  Forall2 (fun p x => outcome w p = Ok x) ps xs ->
  file_id w <$> ps = Ok <$> (entry <$> xs).*1.
Proof.
  induction 1 as [|p [[n g] c] ps xs Ho _ IH]; [reflexivity |].
  apply Process.outcome_file_id in Ho as [Hf _].
  rewrite !fmap_cons, IH, Hf. reflexivity.
Qed.

End Disk.

(** X3: a run changes nothing but the files of its records. A file that
    the path of no record names holds after the run what it held before, and
    no file that was there is removed, whether the run completes or is
    stopped. *)
Theorem run_leaves_other_paths (ps : list prompt) (w : world) (g : string) :
  Forall (fun p => file_id w p <> Ok g) ps ->
  contents (run ps w).2 !! g = contents w !! g
  /\ forall h, is_Some (contents w !! h) -> is_Some (contents (run ps w).2 !! h).
Proof.
  intros Hf. rewrite RunFacts.contents_run. split.
  - apply Store.lookup_store_other. intros [[n h] c] Hx E. simpl in E. subst h.
    destruct (Disk.written_from_records _ _ _ Hx) as (p & Hp & Ho).
    apply Process.outcome_file_id in Ho as [Hd _].
    rewrite Forall_forall in Hf. exact (Hf p Hp Hd).
  - intros h. apply Disk.store_keeps.
Qed.

Lemma run_leaves_other_paths_witness :
  Forall (fun p => file_id disk_with_notes p <> Ok (base_dir +:+ "/notes.txt")) prompts /\
  contents (main disk_with_notes).2 !! (base_dir +:+ "/notes.txt") = Some "keep".
Proof.
  assert (H : Forall (fun p => file_id disk_with_notes p
                               <> Ok (base_dir +:+ "/notes.txt")) prompts)
    by (apply (bool_decide_unpack _); vm_compute; reflexivity).
  split; [exact H |].
  exact (proj1 (run_leaves_other_paths prompts disk_with_notes _ H)).
Defined.

(** X4: when the paths of several records name the same file, the file
    ends up with the text of the last of them: each write replaces the one
    before. For records with their required keys and ASCII titles, on a disk
    with their directories where the platform accepts every path for
    writing, every file holds the document of the last record whose path
    names it, or what it held before the run when no record does. *)
Theorem file_holds_last_record (ps : list prompt) (w : world) (g : string) :
  Forall complete ps -> Forall ascii_title ps ->
  Forall (dir_ready w) ps -> Forall (accepted w) ps ->
  contents (run ps w).2 !! g =
    match last_with_file w g ps with
    | Some p => render p
    | None => contents w !! g
    end.
Proof.
  intros Hc _ Hd Ha. rewrite RunFacts.contents_run, Disk.lookup_store_last.
  destruct (Process.process_all w ps (RunFacts.ready_outcome w ps Hc Hd Ha)) as [_ H2].
  pose proof (Disk.last_write_of_record _ _ _ g H2) as E.
  destruct (last (filter _ (process w ps).1)) as [x|],
    (last_with_file w g ps) as [q|]; try contradiction; [exact (eq_sym E) | reflexivity].
Qed.

Lemma file_holds_last_record_witness :
  (Forall complete [F010; retitled_10] /\ Forall ascii_title [F010; retitled_10] /\
   Forall (dir_ready output_dir_only) [F010; retitled_10] /\
   Forall (accepted output_dir_only) [F010; retitled_10] /\
   derive_filename F010 = derive_filename retitled_10 /\
   contents (run [F010; retitled_10] output_dir_only).2 !! (base_dir +:+ "/10-shadcn-data.md")
     = render retitled_10) /\
  (Forall complete [F010; alias_10] /\ Forall ascii_title [F010; alias_10] /\
   Forall (dir_ready dotdot_disk) [F010; alias_10] /\
   Forall (accepted dotdot_disk) [F010; alias_10] /\
   derive_filename F010 <> derive_filename alias_10 /\
   contents (run [F010; alias_10] dotdot_disk).2 !! (base_dir +:+ "/10-shadcn-data.md")
     = render alias_10).
Proof.
  assert (Hc : Forall complete [F010; retitled_10])
    by (apply (bool_decide_unpack _); vm_compute; reflexivity).
  assert (Hd : Forall (dir_ready output_dir_only) [F010; retitled_10])
    by (apply (bool_decide_unpack _); vm_compute; reflexivity).
  assert (Ha : Forall (accepted output_dir_only) [F010; retitled_10])
    by (apply (bool_decide_unpack _); vm_compute; reflexivity).
  assert (Hc' : Forall complete [F010; alias_10])
    by (apply (bool_decide_unpack _); vm_compute; reflexivity).
  assert (Hd' : Forall (dir_ready dotdot_disk) [F010; alias_10])
    by (apply (bool_decide_unpack _); vm_compute; reflexivity).
  assert (Ha' : Forall (accepted dotdot_disk) [F010; alias_10])
    by (apply (bool_decide_unpack _); vm_compute; reflexivity).
  assert (Hne : derive_filename F010 <> derive_filename alias_10)
    by (apply (bool_decide_unpack _); vm_compute; reflexivity).
  assert (Ht : Forall ascii_title [F010; retitled_10])
    by (apply (bool_decide_unpack _); vm_compute; reflexivity).
  assert (Ht' : Forall ascii_title [F010; alias_10])
    by (apply (bool_decide_unpack _); vm_compute; reflexivity).
  split.
  - split; [exact Hc |]. split; [exact Ht |]. split; [exact Hd |]. split; [exact Ha |].
    split; [reflexivity |].
    exact (file_holds_last_record [F010; retitled_10] output_dir_only
             (base_dir +:+ "/10-shadcn-data.md") Hc Ht Hd Ha).
  - split; [exact Hc' |]. split; [exact Ht' |]. split; [exact Hd' |]. split; [exact Ha' |].
    split; [exact Hne |].
    exact (file_holds_last_record [F010; alias_10] dotdot_disk
             (base_dir +:+ "/10-shadcn-data.md") Hc' Ht' Hd' Ha').
Defined.

(** ** Runs one after the other *)

(** X5: nothing a run leaves behind changes what the next run does. A
    second run over the same records ends as the first did, completed or
    stopped by the same exception, and prints the same console text once
    more after that of the first. *)
Theorem rerun_same_outcome (ps : list prompt) (w : world) :
  (run ps (run ps w).2).1 = (run ps w).1
  /\ exists out,
       stdout (run ps w).2 = stdout w +:+ out /\
       stdout (run ps (run ps w).2).2 = stdout w +:+ out +:+ out.
Proof.
  split.
  - now rewrite !RunFacts.result_run, Run.process_run.
  - rewrite (Run.run_process ps (run ps w).2), Run.process_run.
    rewrite (Run.run_process ps w).
    destruct (process w ps) as [xs [e|]]; simpl.
    + exists (created_lines xs). split; [reflexivity |]. now rewrite !Str.app_assoc.
    + exists (created_lines xs +:+ summary ps +:+ nl).
      split; [reflexivity |]. now rewrite !Str.app_assoc.
Qed.

(** X6: the loop keeps no state between records. When a run over a first
    batch of records completes, a run over a second batch that starts from
    the disk it left ends as one run over both batches does, with the same
    files. *)
Theorem run_in_batches (ps1 ps2 : list prompt) (w : world) :
  (run ps1 w).1 = Ok tt ->
  (run (ps1 ++ ps2) w).1 = (run ps2 (run ps1 w).2).1
  /\ contents (run (ps1 ++ ps2) w).2 = contents (run ps2 (run ps1 w).2).2.
Proof.
  intros Hok. rewrite RunFacts.result_run in Hok.
  assert (H1 : (process w ps1).2 = None)
    by (destruct (process w ps1).2; [discriminate Hok | reflexivity]).
  rewrite !RunFacts.result_run, !RunFacts.contents_run, Run.process_run.
  rewrite (Disk.process_app _ _ ps2 H1). simpl.
  split; [reflexivity | apply Disk.store_app].
Qed.

Lemma run_in_batches_witness :
  (run [F010; F011] output_dir_only).1 = Ok tt /\
  (main output_dir_only).1
    = (run (drop 2 prompts) (run [F010; F011] output_dir_only).2).1 /\
  contents (main output_dir_only).2
    = contents (run (drop 2 prompts) (run [F010; F011] output_dir_only).2).2.
Proof.
  assert (H : (run [F010; F011] output_dir_only).1 = Ok tt) by (vm_compute; reflexivity).
  split; [exact H |].
  exact (run_in_batches [F010; F011] (drop 2 prompts) output_dir_only H).
Defined.

(** X7: the number the summary reports is the number of records, and it is
    the number of files when no two records name the same file: a completed
    run over such records on a disk without files leaves exactly one file
    per record. The run completes for records with their required keys on a
    disk with their directories where the platform accepts every path for
    writing. *)
Theorem one_file_per_record (ps : list prompt) (w : world) :
  Forall complete ps -> Forall (dir_ready w) ps -> Forall (accepted w) ps ->
  NoDup (file_id w <$> ps) -> contents w = ∅ ->
  (run ps w).1 = Ok tt
  /\ size (contents (run ps w).2) = length ps
  /\ ends_with ("Total prompts created: " +:+ digits (N.of_nat (length ps)) +:+ nl)
       (stdout (run ps w).2).
Proof.
  intros Hc Hd Ha Hnd Hempty.
  destruct (Process.process_all w ps (RunFacts.ready_outcome w ps Hc Hd Ha)) as [Hnone H2].
  split; [|split].
  - now rewrite RunFacts.result_run, Hnone.
  - rewrite RunFacts.contents_run, Store.store_union, Hempty, (right_id_L ∅ (∪)).
    rewrite map_size_list_to_map.
    + rewrite length_reverse, length_fmap. symmetry. exact (Forall2_length _ _ _ H2).
    + rewrite fmap_reverse, reverse_Permutation.
      rewrite (Disk.files_of_written _ _ _ H2) in Hnd.
      exact (NoDup_fmap_1 _ _ Hnd).
  - rewrite Run.run_process, Hnone. simpl. unfold summary.
    eexists (stdout w +:+ created_lines _ +:+ nl). unfold str_len.
    now rewrite !Str.app_assoc.
Qed.

Lemma one_file_per_record_witness :
  Forall complete prompts /\ Forall (dir_ready output_dir_only) prompts /\
  Forall (accepted output_dir_only) prompts /\
  NoDup (file_id output_dir_only <$> prompts) /\ contents output_dir_only = ∅ /\
  size (contents (main output_dir_only).2) = 23%nat.
Proof.
  assert (Hc : Forall complete prompts)
    by (apply (bool_decide_unpack _); vm_compute; reflexivity).
  assert (Hd : Forall (dir_ready output_dir_only) prompts)
    by (apply (bool_decide_unpack _); vm_compute; reflexivity).
  assert (Ha : Forall (accepted output_dir_only) prompts)
    by (apply (bool_decide_unpack _); vm_compute; reflexivity).
  assert (Hn : NoDup (file_id output_dir_only <$> prompts))
    by (apply (bool_decide_unpack _); vm_compute; reflexivity).
  split; [exact Hc |]. split; [exact Hd |]. split; [exact Ha |]. split; [exact Hn |].
  split; [reflexivity |].
  exact (proj1 (proj2 (one_file_per_record prompts output_dir_only Hc Hd Ha Hn eq_refl))).
Defined.

(** ** Sections that are always there *)

Module Layout.


Lemma truthy_str_true (s : string) : truthy_str s = true <-> s <> "".
Proof. destruct s; simpl; split; congruence. Qed.

Lemma truthy_str_false (s : string) : truthy_str s = false <-> s = "".
Proof. destruct s; simpl; split; congruence. Qed.

End Layout.



(** X9: the table of files of a document whose record has one-line texts is
    its heading, the two fixed table lines and one row
    [| `hooks/viewer/<file>` | See objective |] per file of the record, in
    order; a record without files has the two table lines and no row. The
    section "Implementation Details" follows in every document. *)
Theorem files_table (p : prompt) (c : string) :
  generate_prompt p = Ok c -> one_line_fields p = true ->
  exists pre post,
    lines c =
      pre
      ++ [ ""; "## Files to Create/Modify"; ""; "| File | Purpose |"; "|------|---------|" ]
      ++ ((fun f => "| `hooks/viewer/" +:+ f +:+ "` | See objective |") <$> get (files p) [])
      ++ [ ""; "## Implementation Details"; "" ]
      ++ post.
Proof.
  intros Hc Hp.
  destruct (Conditional.document_of p c Hc Hp) as (n & t & o & Hn & Ht & Ho & ->).
  cbv beta zeta delta [document_lines].
  exists (header_lines n t o (get (depends p) [])
          ++ opt_lines (truthy_list (get (decisions p) []))
               (decisions_lines (get (decisions p) []))
          ++ opt_lines (truthy_list (get (edge_cases p) []))
               (edge_cases_lines (get (edge_cases p) []))
          ++ opt_lines (truthy_list (get (code_refs p) []))
               (code_refs_lines (get (code_refs p) []))
          ++ constraints_lines
          ++ opt_lines (truthy_str (get (commands p) ""))
               (install_lines (get (commands p) ""))).
  destruct (truthy_str (get (commands p) "")); eexists;
    unfold files_heading_lines, commands_lines, no_commands_lines;
    rewrite <- !app_assoc; reflexivity.
Qed.

Lemma files_table_witness :
  one_line_fields F013 = true /\
  exists c pre post,
    generate_prompt F013 = Ok c /\
    lines c =
      pre
      ++ [ ""; "## Files to Create/Modify"; ""; "| File | Purpose |"; "|------|---------|";
           "| `hooks/viewer/src/components/layout/app-sidebar.tsx` | See objective |";
           "| `hooks/viewer/src/components/layout/header.tsx` | See objective |";
           "| `hooks/viewer/src/components/layout/page-container.tsx` | See objective |";
           ""; "## Implementation Details"; "" ]
      ++ post.
Proof.
  assert (Hp : one_line_fields F013 = true) by (vm_compute; reflexivity).
  split; [exact Hp |].
  destruct (generate_prompt F013) as [c|e] eqn:E; [|vm_compute in E; discriminate E].
  destruct (files_table F013 c E Hp) as (pre & post & H).
  exists c, pre, post. split; [reflexivity | exact H].
Defined.

(** X10: the commands of a record decide two places of its document, and a
    record whose [commands] is the empty string is treated like one without
    the key. With commands, the constraints end with the line
    [- Install components using: `<commands>`] and the implementation
    details are a fenced block with the change of directory and the commands
    as they are; without, the constraints end after their fixed line and the
    implementation details are the one sentence that refers to the code
    references. (For records with one-line texts.) *)
Theorem commands_or_references (p : prompt) (c : string) :
  generate_prompt p = Ok c -> one_line_fields p = true ->
  (get (commands p) "" <> "" ->
   (exists pre post,
      lines c = pre ++ [ "- See `constraints.md` for global rules";
                         "- Install components using: `" +:+ get (commands p) "" +:+ "`";
                         "";
                         "## Files to Create/Modify" ] ++ post)
   /\ (exists pre post,
         lines c = pre ++ [ "## Implementation Details";
                            "";
                            "Run these commands:";
                            "```bash";
                            "cd C:/Users/bobby/src/claude/claude-hall-monitor/hooks/viewer";
                            get (commands p) "";
                            "```";
                            "";
                            "## Acceptance Criteria" ] ++ post))
  /\ (get (commands p) "" = "" ->
      (exists pre post,
         lines c = pre ++ [ "- See `constraints.md` for global rules";
                            "";
                            "## Files to Create/Modify" ] ++ post)
      /\ (exists pre post,
            lines c = pre ++ [ "## Implementation Details";
                               "";
                               "See code references for complete implementation patterns.";
                               "";
                               "## Acceptance Criteria" ] ++ post)).
Proof.
  intros Hc Hp.
  destruct (Conditional.document_of p c Hc Hp) as (n & t & o & Hn & Ht & Ho & ->).
  cbv beta zeta delta [document_lines].
  set (front := header_lines n t o (get (depends p) [])
          ++ opt_lines (truthy_list (get (decisions p) []))
               (decisions_lines (get (decisions p) []))
          ++ opt_lines (truthy_list (get (edge_cases p) []))
               (edge_cases_lines (get (edge_cases p) []))
          ++ opt_lines (truthy_list (get (code_refs p) []))
               (code_refs_lines (get (code_refs p) []))
          ++ [""; "## Constraints"; ""]).
  split; intros Hcmds.
  - apply Layout.truthy_str_true in Hcmds. rewrite Hcmds. split.
    + exists front. eexists. subst front.
      unfold constraints_lines, opt_lines, install_lines, files_heading_lines.
      rewrite <- !app_assoc. reflexivity.
    + exists (front ++ [ "- See `constraints.md` for global rules";
                         "- Install components using: `" +:+ get (commands p) "" +:+ "`" ]
                    ++ files_heading_lines
                    ++ (file_row_line <$> get (files p) []) ++ [""]).
      eexists. subst front.
      unfold constraints_lines, opt_lines, install_lines, commands_lines, acceptance_lines.
      rewrite <- !app_assoc. reflexivity.
  - apply Layout.truthy_str_false in Hcmds. rewrite Hcmds. split.
    + exists front. eexists. subst front.
      unfold constraints_lines, opt_lines, files_heading_lines.
      rewrite <- !app_assoc. reflexivity.
    + exists (front ++ [ "- See `constraints.md` for global rules" ]
                    ++ files_heading_lines
                    ++ (file_row_line <$> get (files p) []) ++ [""]).
      eexists. subst front.
      unfold constraints_lines, opt_lines, no_commands_lines, acceptance_lines.
      rewrite <- !app_assoc. reflexivity.
Qed.

Lemma commands_or_references_witness :
  one_line_fields F010 = true /\ one_line_fields F013 = true /\
  get (commands F010) "" <> "" /\ commands F013 = Some "" /\
  (exists c pre post,
     generate_prompt F010 = Ok c /\
     lines c = pre ++ [ "## Implementation Details"; ""; "Run these commands:"; "```bash";
                        "cd C:/Users/bobby/src/claude/claude-hall-monitor/hooks/viewer";
                        "bun x shadcn@latest add card badge progress table tabs";
                        "```"; ""; "## Acceptance Criteria" ] ++ post) /\
  (exists c pre post,
     generate_prompt F013 = Ok c /\
     lines c = pre ++ [ "## Implementation Details"; "";
                        "See code references for complete implementation patterns.";
                        ""; "## Acceptance Criteria" ] ++ post).
Proof.
  assert (H10 : one_line_fields F010 = true) by (vm_compute; reflexivity).
  assert (H13 : one_line_fields F013 = true) by (vm_compute; reflexivity).
  assert (Hne : get (commands F010) "" <> "") by discriminate.
  split; [exact H10 |]. split; [exact H13 |]. split; [exact Hne |]. split; [reflexivity |].
  split.
  - destruct (generate_prompt F010) as [c|e] eqn:E; [|vm_compute in E; discriminate E].
    destruct (proj2 (proj1 (commands_or_references F010 c E H10) Hne)) as (pre & post & H).
    exists c, pre, post. split; [reflexivity | exact H].
  - destruct (generate_prompt F013) as [c|e] eqn:E; [|vm_compute in E; discriminate E].
    destruct (proj2 (proj2 (commands_or_references F013 c E H13) eq_refl))
      as (pre & post & H).
    exists c, pre, post. split; [reflexivity | exact H].
Defined.

(** ** The footer and the next file *)

(** X11: the pointer at the end of a document fits the file of the next
    record. For a record with a positive number [n] below 32 and any record
    numbered [n + 1], the document of the first ends with
    [Proceed to: `prompts/NN-*.md` (F0NN)] and the path of the second is
    [.../prompts/NN-<its tag>.md] with the same two-digit [NN] printed from
    [n + 1]: the pattern of the pointer, with the tag for its star, is the
    tail of that path. *)
Theorem footer_names_next_file (p q : prompt) (n : Z) (c f : string) :
  num p = Some n -> 0 < n < 32 -> generate_prompt p = Ok c ->
  num q = Some (n + 1) -> derive_filename q = Ok f ->
  exists root tag,
    scope q = Some tag
    /\ f = root +:+ "prompts/" +:+ format_0d 2 (n + 1) +:+ "-" +:+ tag +:+ ".md"
    /\ ends_with ("Proceed to: `prompts/" +:+ format_0d 2 (n + 1) +:+ "-*.md` (F"
                    +:+ format_0d 3 (n + 1) +:+ ")" +:+ nl) c.
Proof.
  intros Hn Hr Hc Hq Hf.
  destruct (Filename.derive_filename_inv q f Hf) as (m & tag & Hm & Htag & ->).
  assert (m = n + 1) as -> by congruence.
  exists "C:/Users/bobby/src/claude/claude-hall-monitor/dev/active/realtime-metrics-dashboard/",
    tag.
  split; [exact Htag |]. split; [reflexivity |].
  pose proof (Footer.ends_with_footer p n c Hn Hc) as [r ->].
  rewrite Footer.footer_below_32 by lia.
  exists (r +:+ nl +:+ "## Next" +:+ nl +:+ nl).
  unfold next_footer. now rewrite !Str.app_assoc.
Qed.

Lemma footer_names_next_file_witness :
  exists c,
    generate_prompt F015 = Ok c /\
    derive_filename F016 =
      Ok ("C:/Users/bobby/src/claude/claude-hall-monitor/dev/active/realtime-metrics-dashboard/"
          +:+ "prompts/" +:+ "16" +:+ "-" +:+ "plans" +:+ ".md") /\
    ends_with ("Proceed to: `prompts/" +:+ "16" +:+ "-*.md` (F" +:+ "016" +:+ ")" +:+ nl) c.
Proof.
  destruct (generate_prompt F015) as [c|e] eqn:E; [|vm_compute in E; discriminate E].
  exists c. split; [reflexivity |]. split; [reflexivity |].
  destruct (footer_names_next_file F015 F016 15 c _ eq_refl ltac:(lia) E eq_refl eq_refl)
    as (root & tag & _ & _ & H).
  exact H.
Defined.

(** ** The output directory *)

Module Dir.








End Dir.


